(** * medorder_prediction (MIMIC scripts): resume-training and embedding search

    A shallow embedding of the two scripts of [mimic/]:

    - [resume_training_no_valid_mimic.py], the script that reloads a
      checkpoint directory and resumes the training of the network
      (module [Resume]);
    - [w2v_embeddings_mimic.py], the script that grid-searches word2vec
      and clustering hyper-parameters and writes the clustered 3-D table
      (module [W2V]).

    Both scripts are straight-line sequences of library calls.  The
    checkpoint directory is a finite map from path to pickled value, the
    script is a computation in a state-and-exception monad over that
    directory, and the numerical work of the libraries (one epoch of
    training, fitting word2vec, UMAP, clustering) is kept abstract as
    section variables.  The analogy accuracy, a quotient of two small
    integers, is studied both as the exact rational it rounds and as the
    binary64 number Python computes; the selection of the best candidate of
    a search, which depends on how sums of scores are rounded, is studied on
    binary64 numbers (module [W2V.Binary64]). *)

From stdpp Require Import gmap strings list fin_maps sorting.
From Stdlib Require Import ZArith QArith Lia Lqa.
From Stdlib Require Import Sorting.Permutation Sorting.Sorted.
From Stdlib Require Import Floats.SpecFloat.

(** ** Python exceptions and outcomes *)

Inductive error : Type :=
| FileNotFoundError (path : string)
| UnpicklingError (path : string)
| ValueError (what : string)
| IndexError
| ZeroDivisionError.

Inductive result (A : Type) : Type :=
| Ok (a : A)
| Raise (e : error).
Arguments Ok {A} a.
Arguments Raise {A} e.

Definition is_ok {A} (r : result A) : bool :=
  match r with Ok _ => true | Raise _ => false end.

(** [os.path.join] on a POSIX system, for relative components. *)
Definition path_join (a b : string) : string := a +:+ "/" +:+ b.

(** ** The resume-training script *)

Module Resume.

(** [SAVE_DIR] and [save_path], lines 37-38. *)
Definition SAVE_DIR : string := "20190813-2105training".
Definition save_path : string := path_join (path_join "mimic" "model") SAVE_DIR.

Definition hp_file : string := path_join save_path "hp.joblib".
Definition encs_file : string := path_join save_path "sampled_encs.pkl".
Definition w2v_file : string := path_join save_path "w2v.joblib".
Definition pse_file : string := path_join save_path "pse.joblib".
Definition le_file : string := path_join save_path "le.joblib".
Definition done_file : string := path_join save_path "done_epochs.pkl".
Definition partial_file : string := path_join save_path "partially_trained_model.h5".
Definition model_file : string := path_join save_path "model.h5".

Definition restricted_msg : string :=
  "Loaded partially completed experiment was done with RESTRICTED DATA !".

Section Script.

(** Opaque library values: the weights of a Keras model, a fitted
    scikit-learn pipeline, one training sample of the data set. *)
Variable weights : Type.
Variable pipeline : Type.
Variable sample : Type.

(** What a file of the checkpoint directory holds once unpickled. *)
Inductive artifact : Type :=
| Tuple (items : list Z)      (* hp.joblib *)
| Encs (encs : list Z)        (* sampled_encs.pkl *)
| Fitted (p : pipeline)       (* w2v.joblib, pse.joblib, le.joblib *)
| Int (n : Z)                 (* done_epochs.pkl *)
| H5 (w : weights).           (* partially_trained_model.h5, model.h5 *)

(** One encounter of the data set: its identifier and its content. *)
Definition dataset : Type := list (Z * sample).

(** The batch generator built at line 131. *)
Record generator : Type := TransformedGenerator {
  g_w2v : pipeline;
  g_pse : pipeline;
  g_le : pipeline;
  g_data : dataset;
  g_embedding_dim : Z;
  g_sequence_length : Z;
  g_batch_size : Z
}.

(** A Keras callback, reduced to its per-epoch hook: given the index of
    the epoch that just ended and the model, it acts on the directory. *)
Record Callback : Type := {
  on_epoch_end : Z → weights → gmap string artifact → gmap string artifact
}.

(** What the script does that can be observed from outside. *)
Inductive event : Type :=
| Load (path : string)                 (* a file opened and unpickled *)
| Save (path : string)                 (* a file written by the script *)
| Print (msg : string)
| LoadData (previous_encs_path : option string)
| Fit (gen : generator) (epochs verbose : Z)
| Epoch (index : Z).

Record state : Type := State {
  files : gmap string artifact;
  log : list event
}.

(** The data set on disk (outside the checkpoint directory), one epoch of
    training and the notebook detector. *)
Variable full_data : dataset.
Variable train_epoch : generator → weights → weights.
Variable in_ipynb : bool.

(** *** The monad: state that survives an exception *)

Definition M (A : Type) : Type := state → result A * state.

Definition ret {A} (a : A) : M A := λ st, (Ok a, st).
Definition throw {A} (e : error) : M A := λ st, (Raise e, st).
Definition bind {A B} (m : M A) (k : A → M B) : M B :=
  λ st, match m st with
        | (Ok a, st') => k a st'
        | (Raise e, st') => (Raise e, st')
        end.

Notation "x <- m ;; k" := (bind m (λ x, k))
  (at level 100, m at next level, right associativity).
Notation "m ;;; k" := (bind m (λ _, k))
  (at level 100, right associativity).

Definition emit (e : event) : M unit :=
  λ st, (Ok tt, State (files st) (log st ++ [e])).

(** *** Primitives

    The directory is typed by its artifacts: a step that finds a value of
    another kind than the one it expects raises there and then.  In Python
    such a value is only rejected where it is used; the difference shows on
    malformed directories only. *)

(** [joblib.load(path)] and [pickle.load(open(path))]. *)
Definition load (path : string) : M artifact :=
  λ st, match files st !! path with
        | Some a => (Ok a, State (files st) (log st ++ [Load path]))
        | None => (Raise (FileNotFoundError path), st)
        end.

Definition isfile (path : string) : M bool :=
  λ st, (Ok (bool_decide (is_Some (files st !! path))), st).

Definition print (msg : string) : M unit := emit (Print msg).

(** [a, b, c, d = t]: unpacking raises unless [t] has four items. *)
Definition unpack4 (path : string) (a : artifact) : M (Z * Z * Z * Z) :=
  match a with
  | Tuple [a; b; c; d] => ret (a, b, c, d)
  | Tuple _ => throw (ValueError "unpack")
  | _ => throw (UnpicklingError path)
  end.

Definition load_pipeline (path : string) : M pipeline :=
  a <- load path ;;
  match a with
  | Fitted p => ret p
  | _ => throw (UnpicklingError path)
  end.

Definition load_int (path : string) : M Z :=
  a <- load path ;;
  match a with
  | Int n => ret n
  | _ => throw (UnpicklingError path)
  end.

(** [tf.keras.models.load_model(path)]. *)
Definition load_model (path : string) : M weights :=
  a <- load path ;;
  match a with
  | H5 w => ret w
  | _ => throw (UnpicklingError path)
  end.

(** [model.save(path)]. *)
Definition model_save (path : string) (w : weights) : M unit :=
  λ st, (Ok tt, State (<[path := H5 w]> (files st)) (log st ++ [Save path])).

(** Modelled from the spec: [data.load_data] and [data.make_lists] of
    [components_mimic], which are not part of the sources.  The data
    service returns the parsed sequences of the data set; given a
    restriction file it returns the encounters listed there, and without
    one the full data set. *)
Definition load_data (previous_encs_path : option string) : M dataset :=
  emit (LoadData previous_encs_path) ;;;
  match previous_encs_path with
  | None => ret full_data
  | Some path =>
      a <- load path ;;
      match a with
      | Encs encs => ret (filter (λ e, bool_decide (e.1 ∈ encs)) full_data)
      | _ => throw (UnpicklingError path)
      end
  end.

(** *** Keras: [model.fit_generator(gen, epochs, callbacks, verbose)]

    With the default [initial_epoch=0], Keras iterates over
    [range(0, epochs)]: each epoch trains once over the generator and then
    calls every callback's [on_epoch_end] in turn. *)

Definition run_callbacks (cbs : list Callback) (epoch : Z) (w : weights)
    (fs : gmap string artifact) : gmap string artifact :=
  foldl (λ fs cb, on_epoch_end cb epoch w fs) fs cbs.

Fixpoint fit_loop (gen : generator) (cbs : list Callback) (n : nat) (epoch : Z)
    (w : weights) (st : state) : weights * state :=
  match n with
  | O => (w, st)
  | S n' =>
      let w' := train_epoch gen w in
      let st' := State (run_callbacks cbs epoch w' (files st)) (log st ++ [Epoch epoch]) in
      fit_loop gen cbs n' (epoch + 1)%Z w' st'
  end.

Definition fit_generator (gen : generator) (epochs : Z) (cbs : list Callback)
    (verbose : Z) (w : weights) : M weights :=
  emit (Fit gen epochs verbose) ;;;
  λ st, let '(w', st') := fit_loop gen cbs (Z.to_nat epochs) 0%Z w st in (Ok w', st').

(** *** The script, cell by cell *)

(** Lines 64-70: the restricted-data marker. *)
Definition choose_enc_file : M (option string) :=
  present <- isfile encs_file ;;
  if present : bool then
    print restricted_msg ;;; ret (Some encs_file)
  else ret None.

(** Lines 151-154. *)
Definition verbose : Z := if in_ipynb then 2%Z else 1%Z.

(** Everything after the hyper-parameters have been read (lines 62-161).
    [n_callbacks] is the callback factory
    [neural_network.callbacks(save_path, callback_mode, n_done_epochs)].
    Lines 123-125 only read attributes of the fitted pipelines into names
    that the script does not use afterwards, except for the word2vec step
    itself, which the generator keeps. *)
Definition resume_with (n_callbacks : string → Z → list Callback)
    (hp : Z * Z * Z * Z) : M unit :=
  let '(N_TRAINING_EPOCHS, BATCH_SIZE, SEQUENCE_LENGTH, W2V_EMBEDDING_DIM) := hp in
  enc_file <- choose_enc_file ;;
  d <- load_data enc_file ;;
  w2v <- load_pipeline w2v_file ;;
  pse <- load_pipeline pse_file ;;
  le <- load_pipeline le_file ;;
  N_DONE_EPOCHS <- load_int done_file ;;
  let train_generator :=
    TransformedGenerator w2v pse le d W2V_EMBEDDING_DIM SEQUENCE_LENGTH BATCH_SIZE in
  let callbacks := n_callbacks save_path N_DONE_EPOCHS in
  model <- load_model partial_file ;;
  model' <- fit_generator train_generator (N_TRAINING_EPOCHS - N_DONE_EPOCHS)%Z
              callbacks verbose model ;;
  model_save model_file model'.

(** The whole script: line 60, then the rest. *)
Definition resume_training (n_callbacks : string → Z → list Callback) : M unit :=
  a <- load hp_file ;;
  hp <- unpack4 hp_file a ;;
  resume_with n_callbacks hp.

(** Running the script as a fresh process on a checkpoint directory. *)
Definition run (n_callbacks : string → Z → list Callback)
    (fs : gmap string artifact) : result unit * state :=
  resume_training n_callbacks (State fs []).

(** *** What a well-formed checkpoint directory holds *)

Record contents : Type := Contents {
  c_total : Z;                  (* N_TRAINING_EPOCHS *)
  c_batch : Z;                  (* BATCH_SIZE *)
  c_seqlen : Z;                 (* SEQUENCE_LENGTH *)
  c_dim : Z;                    (* W2V_EMBEDDING_DIM *)
  c_marker : option (list Z);   (* sampled_encs.pkl, when there is one *)
  c_w2v : pipeline;
  c_pse : pipeline;
  c_le : pipeline;
  c_completed : Z;              (* done_epochs.pkl *)
  c_weights : weights           (* partially_trained_model.h5 *)
}.

Record holds (fs : gmap string artifact) (c : contents) : Prop := Holds {
  holds_hp : fs !! hp_file = Some (Tuple [c_total c; c_batch c; c_seqlen c; c_dim c]);
  holds_encs : fs !! encs_file = Encs <$> c_marker c;
  holds_w2v : fs !! w2v_file = Some (Fitted (c_w2v c));
  holds_pse : fs !! pse_file = Some (Fitted (c_pse c));
  holds_le : fs !! le_file = Some (Fitted (c_le c));
  holds_done : fs !! done_file = Some (Int (c_completed c));
  holds_partial : fs !! partial_file = Some (H5 (c_weights c))
}.

(** The data the generator is built on, the generator, the epoch count
    handed to Keras and the events that precede training. *)
Definition data_of (c : contents) : dataset :=
  match c_marker c with
  | Some encs => filter (λ e, bool_decide (e.1 ∈ encs)) full_data
  | None => full_data
  end.

Definition generator_of (c : contents) : generator :=
  TransformedGenerator (c_w2v c) (c_pse c) (c_le c) (data_of c)
    (c_dim c) (c_seqlen c) (c_batch c).

Definition remaining (c : contents) : Z := (c_total c - c_completed c)%Z.

Definition marker_events (c : contents) : list event :=
  match c_marker c with
  | Some _ => [Print restricted_msg; LoadData (Some encs_file); Load encs_file]
  | None => [LoadData None]
  end.

Definition loading_events (c : contents) : list event :=
  [Load hp_file] ++ marker_events c ++
  [Load w2v_file; Load pse_file; Load le_file; Load done_file; Load partial_file].

(** The model and the directory after [n] epochs numbered from [epoch]. *)
Fixpoint trained (gen : generator) (n : nat) (w : weights) : weights :=
  match n with
  | O => w
  | S n' => trained gen n' (train_epoch gen w)
  end.

Fixpoint checkpointed (gen : generator) (cbs : list Callback) (n : nat) (epoch : Z)
    (w : weights) (fs : gmap string artifact) : gmap string artifact :=
  match n with
  | O => fs
  | S n' =>
      let w' := train_epoch gen w in
      checkpointed gen cbs n' (epoch + 1)%Z w' (run_callbacks cbs epoch w' fs)
  end.

(** Modelled from the spec: the callbacks that
    [neural_network.callbacks(save_path, callback_mode='train_no_valid',
    n_done_epochs)] of [components_mimic] returns; that module is not part
    of the sources.  The specification describes "a callback that persists
    the updated epoch counter and model weights after every epoch (so a
    second interruption loses at most one epoch of progress)", the counter
    and the weights being "repeatedly overwritten as training progresses".
    A later resume reads the counter from [done_epochs.pkl] and the weights
    in progress from [partially_trained_model.h5], so these are the two
    files the callback writes. *)
Definition checkpoint_callback (path : string) (n_done_epochs : Z) : Callback :=
  {| on_epoch_end epoch w fs :=
       <[path_join path "done_epochs.pkl" := Int (n_done_epochs + epoch + 1)]>
         (<[path_join path "partially_trained_model.h5" := H5 w]> fs) |}.

(** Modelled from the spec: the callback factory of [components_mimic]
    (see [checkpoint_callback]); the callback mode is fixed to
    ['train_no_valid'], the one the script asks for. *)
Definition callbacks (path : string) (n_done_epochs : Z) : list Callback :=
  [checkpoint_callback path n_done_epochs].

(** *** Reading the log *)

Definition is_load (p : string) (e : event) : bool :=
  match e with Load q => bool_decide (q = p) | _ => false end.

Definition is_save (p : string) (e : event) : bool :=
  match e with Save q => bool_decide (q = p) | _ => false end.

Definition any_save (e : event) : bool :=
  match e with Save _ => true | _ => false end.

(** How often the script read, or wrote, the file [p]. *)
Definition loads_of (p : string) (l : list event) : nat :=
  length (List.filter (is_load p) l).

Definition saves_of (p : string) (l : list event) : nat :=
  length (List.filter (is_save p) l).

(** The indices of the epochs that were trained, in order. *)
Definition epochs_run (l : list event) : list Z :=
  omap (λ e, match e with Epoch i => Some i | _ => None end) l.

(** The epoch counts that were handed to [fit_generator]. *)
Definition epochs_requested (l : list event) : list Z :=
  omap (λ e, match e with Fit _ epochs _ => Some epochs | _ => None end) l.

(** The arguments [load_data] was called with, what was printed, and the
    data behind the generator that was handed to [fit_generator]. *)
Definition load_data_calls (l : list event) : list (option string) :=
  omap (λ e, match e with LoadData a => Some a | _ => None end) l.

Definition printed (l : list event) : list string :=
  omap (λ e, match e with Print msg => Some msg | _ => None end) l.

Definition training_data (l : list event) : list dataset :=
  omap (λ e, match e with Fit gen _ _ => Some (g_data gen) | _ => None end) l.

(** The calls of [fit_generator]: the generator and the epoch count each
    one received. *)
Definition fit_calls (l : list event) : list (generator * Z) :=
  omap (λ e, match e with Fit gen epochs _ => Some (gen, epochs) | _ => None end) l.


(** A factory whose callbacks, made for the script's directory, never
    touch the file [p]. *)
Definition callbacks_keep (p : string) (n_callbacks : string → Z → list Callback) : Prop :=
  ∀ n_done cb epoch w fs,
    cb ∈ n_callbacks save_path n_done → on_epoch_end cb epoch w fs !! p = fs !! p.

(** A computation leaves the file [p] as it is and only logs events
    accepted by [ok]. *)
Definition extends (ok : event → bool) (p : string) (st st' : state) : Prop :=
  files st' !! p = files st !! p ∧
  ∃ l, log st' = log st ++ l ∧ forallb ok l = true.

Definition confined (ok : event → bool) (p : string) {A} (m : M A) : Prop :=
  ∀ st, extends ok p st (m st).2.

(** *** The run on a well-formed checkpoint, in closed form *)

Lemma fit_loop_eq gen cbs n epoch w st :
  fit_loop gen cbs n epoch w st =
  (trained gen n w,
   State (checkpointed gen cbs n epoch w (files st))
         (log st ++ (Epoch <$> seqZ epoch (Z.of_nat n)))).
Proof.
  revert epoch w st.
  induction n as [|n IH]; intros epoch w st.
  - destruct st as [fs l]. simpl. by rewrite app_nil_r.
  - cbn [fit_loop trained checkpointed]. rewrite IH. cbn [files log].
    rewrite (seqZ_cons epoch (Z.of_nat (S n))) by lia.
    rewrite <- app_assoc. cbn [app fmap list_fmap].
    by replace (Z.pred (Z.of_nat (S n))) with (Z.of_nat n) by lia.
Qed.

Lemma seqZ_to_nat m len : seqZ m (Z.of_nat (Z.to_nat len)) = seqZ m len.
Proof. unfold seqZ. by rewrite Nat2Z.id. Qed.

(** The weights and the directory that training leaves behind. *)
Definition final_weights (c : contents) : weights :=
  trained (generator_of c) (Z.to_nat (remaining c)) (c_weights c).

Definition after_training (n_callbacks : string → Z → list Callback)
    (fs : gmap string artifact) (c : contents) : gmap string artifact :=
  checkpointed (generator_of c) (n_callbacks save_path (c_completed c))
    (Z.to_nat (remaining c)) 0 (c_weights c) fs.

Lemma run_holds n_callbacks fs c :
  holds fs c →
  run n_callbacks fs =
  (Ok tt,
   State (<[model_file := H5 (final_weights c)]> (after_training n_callbacks fs c))
         (loading_events c ++ [Fit (generator_of c) (remaining c) verbose] ++
          (Epoch <$> seqZ 0 (remaining c)) ++ [Save model_file])).
Proof.
  intros [Hhp Hencs Hw2v Hpse Hle Hdone Hpartial].
  destruct c as [total batch seqlen dim marker w2v pse le completed w].
  cbn [c_total c_batch c_seqlen c_dim c_marker c_w2v c_pse c_le c_completed c_weights] in *.
  unfold run, resume_training, bind, load at 1. cbn [files log].
  rewrite Hhp. cbn [unpack4 ret resume_with].
  unfold bind at 1, choose_enc_file, bind at 1, isfile. cbn [files log].
  unfold final_weights, after_training, loading_events, marker_events, generator_of,
    data_of, remaining.
  cbn [c_total c_batch c_seqlen c_dim c_marker c_w2v c_pse c_le c_completed c_weights].
  destruct marker as [encs|]; cbn [fmap option_fmap option_map] in Hencs.
  - rewrite bool_decide_eq_true_2 by (rewrite Hencs; eauto).
    unfold bind, print, emit, load_data, load_pipeline, load_int, load_model,
      fit_generator, model_save, load, bind, emit, ret. cbn [files log].
    repeat (progress (cbn [files log]; rewrite ?Hencs, ?Hw2v, ?Hpse, ?Hle, ?Hdone, ?Hpartial)).
    rewrite fit_loop_eq. cbn [files log]. rewrite seqZ_to_nat.
    by rewrite <- !app_assoc.
  - rewrite bool_decide_eq_false_2 by (rewrite Hencs; by intros [? ?]).
    unfold bind, print, emit, load_data, load_pipeline, load_int, load_model,
      fit_generator, model_save, load, bind, emit, ret. cbn [files log].
    repeat (progress (cbn [files log]; rewrite ?Hw2v, ?Hpse, ?Hle, ?Hdone, ?Hpartial)).
    rewrite fit_loop_eq. cbn [files log]. rewrite seqZ_to_nat.
    by rewrite <- !app_assoc.
Qed.

(** *** Facts about the log of a run *)

Lemma epochs_run_app l1 l2 : epochs_run (l1 ++ l2) = epochs_run l1 ++ epochs_run l2.
Proof. apply omap_app. Qed.

Lemma epochs_run_epochs (l : list Z) : epochs_run (Epoch <$> l) = l.
Proof. induction l as [|i l IH]; [done|]. cbn. by f_equal. Qed.

Lemma epochs_run_loading c : epochs_run (loading_events c) = [].
Proof. unfold loading_events, marker_events. by destruct (c_marker c). Qed.

Lemma epochs_run_log c gen e v :
  epochs_run (loading_events c ++ [Fit gen e v] ++ (Epoch <$> seqZ 0 (remaining c)) ++
              [Save model_file]) = seqZ 0 (remaining c).
Proof.
  rewrite !epochs_run_app, epochs_run_loading, epochs_run_epochs. cbn.
  by rewrite app_nil_r.
Qed.

Lemma epochs_requested_log c gen e v l :
  epochs_requested (loading_events c ++ [Fit gen e v] ++ (Epoch <$> l) ++
                    [Save model_file]) = [e].
Proof.
  unfold epochs_requested. rewrite !omap_app.
  replace (omap _ (loading_events c)) with (@nil Z)
    by (unfold loading_events, marker_events; by destruct (c_marker c)).
  replace (omap _ (Epoch <$> l)) with (@nil Z); [done|].
  induction l as [|i l IH]; [done|]. by cbn.
Qed.

(** *** What the callbacks leave in the directory *)

Lemma run_callbacks_keep p cbs epoch w fs :
  (∀ cb e w' fs', cb ∈ cbs → on_epoch_end cb e w' fs' !! p = fs' !! p) →
  run_callbacks cbs epoch w fs !! p = fs !! p.
Proof.
  unfold run_callbacks. revert fs.
  induction cbs as [|cb cbs IH]; intros fs Hkeep; [done|].
  cbn [foldl]. rewrite IH.
  - apply Hkeep. by left.
  - intros cb' e w' fs' Hin. apply Hkeep. by right.
Qed.

Lemma checkpointed_keep p gen cbs n epoch w fs :
  (∀ cb e w' fs', cb ∈ cbs → on_epoch_end cb e w' fs' !! p = fs' !! p) →
  checkpointed gen cbs n epoch w fs !! p = fs !! p.
Proof.
  intros Hkeep. revert epoch w fs.
  induction n as [|n IH]; intros epoch w fs; [done|].
  cbn [checkpointed]. rewrite IH. by apply run_callbacks_keep.
Qed.

Lemma checkpoint_callback_other p path n_done epoch w fs :
  p ≠ path_join path "done_epochs.pkl" →
  p ≠ path_join path "partially_trained_model.h5" →
  on_epoch_end (checkpoint_callback path n_done) epoch w fs !! p = fs !! p.
Proof. intros H1 H2. cbn. by rewrite !lookup_insert_ne. Qed.

Lemma checkpointed_callbacks_done gen n_done n epoch w fs :
  (0 < n)%nat →
  checkpointed gen (callbacks save_path n_done) n epoch w fs !! done_file
  = Some (Int (n_done + epoch + Z.of_nat n)).
Proof.
  revert epoch w fs.
  induction n as [|n IH]; intros epoch w fs Hn; [lia|].
  cbn [checkpointed]. destruct n as [|n].
  - cbn. rewrite lookup_insert_eq. do 2 f_equal; lia.
  - rewrite IH by lia. do 2 f_equal; lia.
Qed.

Lemma checkpointed_callbacks_partial gen n_done n epoch w fs :
  (0 < n)%nat →
  checkpointed gen (callbacks save_path n_done) n epoch w fs !! partial_file
  = Some (H5 (trained gen n w)).
Proof.
  revert epoch w fs.
  induction n as [|n IH]; intros epoch w fs Hn; [lia|].
  cbn [checkpointed trained]. destruct n as [|n].
  - cbn. rewrite lookup_insert_ne by done. by rewrite lookup_insert_eq.
  - by rewrite IH by lia.
Qed.

Lemma checkpointed_callbacks_other p gen n_done n epoch w fs :
  p ≠ done_file → p ≠ partial_file →
  checkpointed gen (callbacks save_path n_done) n epoch w fs !! p = fs !! p.
Proof.
  intros H1 H2. apply checkpointed_keep.
  intros cb e w' fs' Hin. apply list_elem_of_singleton in Hin as ->.
  by apply checkpoint_callback_other.
Qed.

Lemma callbacks_keep_callbacks p :
  p ≠ done_file → p ≠ partial_file → callbacks_keep p callbacks.
Proof.
  intros H1 H2 n_done cb epoch w fs Hin.
  apply list_elem_of_singleton in Hin as ->.
  by apply checkpoint_callback_other.
Qed.

(** *** Computations that stay away from a file *)

Lemma extends_refl ok p st : extends ok p st st.
Proof. split; [done|]. exists []. by rewrite app_nil_r. Qed.








Lemma confined_isfile ok p q : confined ok p (isfile q).
Proof. intros st. apply extends_refl. Qed.




Lemma choose_enc_file_cases st :
  (is_Some (files st !! encs_file) ∧
   choose_enc_file st =
     (Ok (Some encs_file), State (files st) (log st ++ [Print restricted_msg]))) ∨
  (files st !! encs_file = None ∧ choose_enc_file st = (Ok None, st)).
Proof.
  unfold choose_enc_file, bind, isfile.
  destruct (files st !! encs_file) as [a|] eqn:Hlook.
  - left. split; [by eexists|]. by rewrite bool_decide_eq_true_2 by (by eexists).
  - right. split; [done|]. by rewrite bool_decide_eq_false_2 by (by intros [? ?]).
Qed.







Lemma omap_log {B} (f : event → option B) c gen e v l :
  (∀ i, f (Epoch i) = None) →
  omap f (loading_events c ++ [Fit gen e v] ++ (Epoch <$> l) ++ [Save model_file])
  = omap f (loading_events c) ++ omap f [Fit gen e v] ++ omap f [Save model_file].
Proof.
  intros Hf. rewrite !omap_app. do 2 f_equal.
  replace (omap f (Epoch <$> l)) with (@nil B); [done|].
  induction l as [|i l IH]; [done|]. cbn. by rewrite Hf.
Qed.

Lemma filter_log (f : event → bool) c gen e v l :
  (∀ i, f (Epoch i) = false) →
  List.filter f (loading_events c ++ [Fit gen e v] ++ (Epoch <$> l) ++ [Save model_file])
  = List.filter f (loading_events c) ++ List.filter f [Fit gen e v] ++
    List.filter f [Save model_file].
Proof.
  intros Hf. rewrite !List.filter_app. do 2 f_equal.
  replace (List.filter f (Epoch <$> l)) with (@nil event); [done|].
  induction l as [|i l IH]; [done|]. cbn. by rewrite Hf.
Qed.

(** ** Properties of the resume-training script *)

(** C1. On a well-formed checkpoint with [0 <= completed < total], the
    script asks Keras for [total - completed] epochs, exactly that many
    epochs are trained (numbered from 0), the weights saved at the end are
    the loaded ones trained that many times, and the per-epoch callback
    leaves the counter file at [total]. *)
Theorem resume_trains_remaining_epochs fs c :
  holds fs c →
  (0 ≤ c_completed c < c_total c)%Z →
  ∃ st',
    run callbacks fs = (Ok tt, st') ∧
    epochs_requested (log st') = [(c_total c - c_completed c)%Z] ∧
    epochs_run (log st') = seqZ 0 (c_total c - c_completed c) ∧
    Z.of_nat (length (epochs_run (log st'))) = (c_total c - c_completed c)%Z ∧
    files st' !! model_file =
      Some (H5 (trained (generator_of c) (Z.to_nat (c_total c - c_completed c))
                  (c_weights c))) ∧
    files st' !! done_file = Some (Int (c_total c)).
Proof.
  intros Hfs Hrange. eexists. split; [by apply run_holds|].
  cbn [files log]. rewrite epochs_run_log, epochs_requested_log.
  unfold remaining. repeat split.
  - rewrite length_seqZ. lia.
  - by rewrite lookup_insert_eq.
  - rewrite lookup_insert_ne by done.
    unfold after_training, remaining.
    rewrite checkpointed_callbacks_done by lia. do 2 f_equal; lia.
Qed.

(** C3. On a well-formed checkpoint whose counter equals the epoch
    budget, whatever the callbacks: no epoch is trained, the only change to
    the directory is [model.h5], which receives the weights of the loaded
    partial model, and running the script again on the result changes
    nothing more. *)
Theorem resume_at_budget_is_idempotent n_callbacks fs c :
  holds fs c →
  c_completed c = c_total c →
  ∃ st',
    run n_callbacks fs = (Ok tt, st') ∧
    epochs_requested (log st') = [0%Z] ∧
    epochs_run (log st') = [] ∧
    files st' = <[model_file := H5 (c_weights c)]> fs ∧
    files st' !! partial_file = Some (H5 (c_weights c)) ∧
    run n_callbacks (files st') = (Ok tt, st').
Proof.
  intros Hfs Heq.
  assert (Hrem : remaining c = 0%Z) by (unfold remaining; lia).
  assert (Hfs' : holds (<[model_file := H5 (c_weights c)]> fs) c).
  { destruct Hfs. split; by rewrite lookup_insert_ne. }
  eexists. split; [by apply run_holds|].
  cbn [files log]. rewrite epochs_run_log, epochs_requested_log.
  unfold final_weights, after_training. rewrite Hrem.
  change (Z.to_nat 0) with 0%nat. cbn [trained checkpointed].
  repeat split; try done.
  - rewrite lookup_insert_ne by done. apply Hfs.
  - rewrite (run_holds _ _ _ Hfs').
    unfold final_weights, after_training. rewrite Hrem.
    change (Z.to_nat 0) with 0%nat. cbn [trained checkpointed].
    by rewrite insert_insert_eq.
Qed.

(** C9. The counter is not validated: on a checkpoint that is well formed
    except that its counter exceeds the epoch budget, the script raises
    nothing, hands the negative difference [total - completed] to
    [fit_generator] as its epoch count, trains no epoch and saves the
    loaded weights as the final model. *)
Theorem resume_passes_negative_epochs n_callbacks fs c :
  holds fs c →
  (c_total c < c_completed c)%Z →
  ∃ st',
    run n_callbacks fs = (Ok tt, st') ∧
    Fit (generator_of c) (c_total c - c_completed c) verbose ∈ log st' ∧
    epochs_requested (log st') = [(c_total c - c_completed c)%Z] ∧
    (c_total c - c_completed c < 0)%Z ∧
    epochs_run (log st') = [] ∧
    files st' = <[model_file := H5 (c_weights c)]> fs.
Proof.
  intros Hfs Hlt. eexists. split; [by apply run_holds|].
  cbn [files log]. rewrite epochs_run_log, epochs_requested_log.
  unfold final_weights, after_training, remaining.
  replace (Z.to_nat (c_total c - c_completed c)) with 0%nat by lia.
  cbn [trained checkpointed].
  repeat split; try done; try lia.
  - rewrite !elem_of_app. right. left. by apply list_elem_of_singleton.
  - unfold seqZ. by replace (Z.to_nat (c_total c - c_completed c)) with 0%nat by lia.
Qed.

(** C4. The restricted-data marker.  In every directory the branch of
    lines 64-70 raises nothing: it yields the marker's path, and prints the
    notice, exactly when the marker file exists, and yields no path
    otherwise.  On a well-formed checkpoint the run then succeeds either
    way, [load_data] is called once, with the marker's path when the marker
    is present and without a restriction when it is absent, and the
    generator handed to training is built on the encounters listed in the
    marker in the first case and on the full data set in the second. *)
Theorem restricted_data_iff_marker n_callbacks fs c :
  holds fs c →
  (∀ st, choose_enc_file st =
         if decide (is_Some (files st !! encs_file))
         then (Ok (Some encs_file), State (files st) (log st ++ [Print restricted_msg]))
         else (Ok None, st)) ∧
  ∃ st',
    run n_callbacks fs = (Ok tt, st') ∧
    load_data_calls (log st') =
      [if decide (is_Some (fs !! encs_file)) then Some encs_file else None] ∧
    printed (log st') =
      (if decide (is_Some (fs !! encs_file)) then [restricted_msg] else []) ∧
    training_data (log st') =
      [match fs !! encs_file with
       | Some (Encs encs) => filter (λ e, bool_decide (e.1 ∈ encs)) full_data
       | _ => full_data
       end].
Proof.
  intros Hfs. split.
  { intros st. destruct (choose_enc_file_cases st) as [[Hs ->]|[Hn ->]].
    - by rewrite decide_True.
    - rewrite decide_False; [done|]. rewrite Hn. by intros [? ?]. }
  eexists. split; [by apply run_holds|]. cbn [log].
  unfold load_data_calls, printed, training_data. rewrite !omap_log by done.
  rewrite (holds_encs _ _ Hfs).
  unfold loading_events, marker_events, generator_of, data_of.
  destruct (c_marker c) as [encs|]; cbn [fmap option_fmap option_map].
  - rewrite decide_True by (by eexists). done.
  - rewrite decide_False by (by intros [? ?]). done.
Qed.


(** C7.  On a well-formed checkpoint, whatever the per-epoch callbacks:
    the run succeeds and saves the final weights as [model.h5], a path
    different from [partially_trained_model.h5]; that save is the only
    change the script makes to the directory that training left; the script
    reads the partial artifact once and never writes it, [model.h5] being
    the only file it writes, so that its final save leaves the partial
    artifact as training left it; and with callbacks that do not write the
    partial artifact, that artifact is after the run the file that was
    loaded, unchanged. *)
Theorem final_model_saved_beside_partial n_callbacks fs c :
  holds fs c →
  ∃ st',
    run n_callbacks fs = (Ok tt, st') ∧
    model_file ≠ partial_file ∧
    files st' !! model_file = Some (H5 (final_weights c)) ∧
    files st' = <[model_file := H5 (final_weights c)]> (after_training n_callbacks fs c) ∧
    List.filter any_save (log st') = [Save model_file] ∧
    loads_of partial_file (log st') = 1%nat ∧
    saves_of partial_file (log st') = 0%nat ∧
    files st' !! partial_file = after_training n_callbacks fs c !! partial_file ∧
    (callbacks_keep partial_file n_callbacks →
       files st' !! partial_file = fs !! partial_file ∧
       files st' !! partial_file = Some (H5 (c_weights c))).
Proof.
  intros Hfs. eexists. split; [by apply run_holds|]. cbn [files log].
  unfold loads_of, saves_of. rewrite !filter_log by done.
  split; [done|]. split; [by rewrite lookup_insert_eq|]. split; [done|].
  split; [unfold loading_events, marker_events; by destruct (c_marker c)|].
  split; [unfold loading_events, marker_events; by destruct (c_marker c)|].
  split; [unfold loading_events, marker_events; by destruct (c_marker c)|].
  split; [by rewrite lookup_insert_ne|].
  intros Hkeep. rewrite lookup_insert_ne by done.
  assert (Hsame : after_training n_callbacks fs c !! partial_file = fs !! partial_file).
  { unfold after_training. apply checkpointed_keep.
    intros cb e w' fs' Hin. by eapply Hkeep. }
  rewrite Hsame. split; [done|]. apply Hfs.
Qed.

End Script.

Arguments Tuple {weights pipeline} items.
Arguments Encs {weights pipeline} encs.
Arguments Fitted {weights pipeline} p.
Arguments Int {weights pipeline} n.
Arguments H5 {weights pipeline} w.
Arguments Load {pipeline sample} path.
Arguments Save {pipeline sample} path.
Arguments Print {pipeline sample} msg.
Arguments LoadData {pipeline sample} previous_encs_path.
Arguments Fit {pipeline sample} gen epochs verbose.
Arguments Epoch {pipeline sample} index.
Arguments State {weights pipeline sample} files log.
Arguments files {weights pipeline sample} s.
Arguments log {weights pipeline sample} s.
Arguments g_data {pipeline sample} g.
Arguments Contents {weights pipeline}.
Arguments holds {weights pipeline} fs c.
Arguments callbacks {weights pipeline} path n_done_epochs.
Arguments run {weights pipeline sample} full_data train_epoch in_ipynb n_callbacks fs.
Arguments epochs_run {pipeline sample} l.
Arguments epochs_requested {pipeline sample} l.
Arguments load_data_calls {pipeline sample} l.
Arguments printed {pipeline sample} l.
Arguments training_data {pipeline sample} l.
Arguments loads_of {pipeline sample} p l.
Arguments saves_of {pipeline sample} p l.
Arguments fit_calls {pipeline sample} l.
Arguments g_batch_size {pipeline sample} g.
Arguments g_sequence_length {pipeline sample} g.
Arguments g_embedding_dim {pipeline sample} g.

(** *** A concrete checkpoint directory

    Weights are integers, one epoch adds the number of encounters of the
    training data to them, and fitted pipelines are named by strings. *)

Definition ex_data : dataset unit := [(1%Z, tt); (2%Z, tt); (3%Z, tt)].

Definition ex_train (gen : generator string unit) (w : Z) : Z :=
  (w + Z.of_nat (length (g_data gen)))%Z.

Definition ex_base (total completed : Z) : gmap string (artifact Z string) :=
  <[hp_file := Tuple [total; 32; 30; 64]%Z]>
  (<[w2v_file := Fitted "w2v"]>
  (<[pse_file := Fitted "pse"]>
  (<[le_file := Fitted "le"]>
  (<[done_file := Int completed]>
  (<[partial_file := H5 100%Z]> ∅))))).

Definition ex_files (total completed : Z) (marker : option (list Z))
    : gmap string (artifact Z string) :=
  match marker with
  | Some encs => <[encs_file := Encs encs]> (ex_base total completed)
  | None => ex_base total completed
  end.

Definition ex_contents (total completed : Z) (marker : option (list Z))
    : contents Z string :=
  Contents total 32%Z 30%Z 64%Z marker "w2v" "pse" "le" completed 100%Z.

Definition ex_run (total completed : Z) (marker : option (list Z))
    : result unit * state Z string unit :=
  run ex_data ex_train false callbacks (ex_files total completed marker).

(** The scenario of the specification: three epochs done out of five. *)
Example ex_run_3_of_5 :
  (ex_run 5 3 None).1 = Ok tt ∧
  epochs_run (log (ex_run 5 3 None).2) = [0; 1]%Z ∧
  files (ex_run 5 3 None).2 !! done_file = Some (Int 5) ∧
  files (ex_run 5 3 None).2 !! model_file = Some (H5 106%Z).
Proof. vm_compute. done. Qed.

Example ex_run_restricted :
  training_data (log (ex_run 5 3 (Some [2; 3]%Z)).2) = [[(2%Z, tt); (3%Z, tt)]] ∧
  files (ex_run 5 3 (Some [2; 3]%Z)).2 !! model_file = Some (H5 104%Z).
Proof. vm_compute. done. Qed.

Example ex_run_missing_counter :
  run ex_data ex_train false callbacks (delete done_file (ex_files 5 3 None))
  = (Raise (FileNotFoundError done_file),
     State (delete done_file (ex_files 5 3 None))
       [Load hp_file; LoadData None; Load w2v_file; Load pse_file; Load le_file]).
Proof. vm_compute. done. Qed.

Lemma ex_holds total completed marker :
  holds (ex_files total completed marker) (ex_contents total completed marker).
Proof. destruct marker; split; reflexivity. Qed.

Lemma resume_trains_remaining_epochs_witness :
  ∃ st',
    ex_run 5 3 None = (Ok tt, st') ∧
    epochs_requested (log st') = [2%Z] ∧
    epochs_run (log st') = [0; 1]%Z ∧
    Z.of_nat (length (epochs_run (log st'))) = 2%Z ∧
    files st' !! model_file = Some (H5 106%Z) ∧
    files st' !! done_file = Some (Int 5).
Proof.
  apply (resume_trains_remaining_epochs Z string unit ex_data ex_train false
           (ex_files 5 3 None) (ex_contents 5 3 None)).
  - split; reflexivity.
  - simpl. lia.
Defined.

Lemma resume_at_budget_is_idempotent_witness :
  ∃ st',
    ex_run 5 5 None = (Ok tt, st') ∧
    epochs_requested (log st') = [0%Z] ∧
    epochs_run (log st') = [] ∧
    files st' = <[model_file := H5 100%Z]> (ex_files 5 5 None) ∧
    files st' !! partial_file = Some (H5 100%Z) ∧
    run ex_data ex_train false callbacks (files st') = (Ok tt, st').
Proof.
  apply (resume_at_budget_is_idempotent Z string unit ex_data ex_train false
           callbacks (ex_files 5 5 None) (ex_contents 5 5 None)).
  - split; reflexivity.
  - reflexivity.
Defined.

Lemma resume_passes_negative_epochs_witness :
  ∃ st',
    ex_run 3 5 None = (Ok tt, st') ∧
    Fit (generator_of Z string unit ex_data (ex_contents 3 5 None)) (-2) 1 ∈ log st' ∧
    epochs_requested (log st') = [(-2)%Z] ∧
    (3 - 5 < 0)%Z ∧
    epochs_run (log st') = [] ∧
    files st' = <[model_file := H5 100%Z]> (ex_files 3 5 None).
Proof.
  apply (resume_passes_negative_epochs Z string unit ex_data ex_train false
           callbacks (ex_files 3 5 None) (ex_contents 3 5 None)).
  - split; reflexivity.
  - simpl. lia.
Defined.

Lemma restricted_data_iff_marker_witness :
  ∃ st',
    ex_run 5 3 (Some [2; 3]%Z) = (Ok tt, st') ∧
    load_data_calls (log st') = [Some encs_file] ∧
    printed (log st') = [restricted_msg] ∧
    training_data (log st') = [[(2%Z, tt); (3%Z, tt)]].
Proof.
  apply (restricted_data_iff_marker Z string unit ex_data ex_train false
           callbacks (ex_files 5 3 (Some [2; 3]%Z)) (ex_contents 5 3 (Some [2; 3]%Z))).
  split; reflexivity.
Defined.

(** A callback factory whose callbacks write no file, such as a progress
    logger. *)
Definition ex_quiet_callbacks (path : string) (n_done_epochs : Z)
    : list (Callback Z string) :=
  [{| on_epoch_end := λ epoch w fs, fs |}].

Lemma ex_quiet_callbacks_keep p : callbacks_keep Z string p ex_quiet_callbacks.
Proof.
  intros n_done cb epoch w fs Hin. apply list_elem_of_singleton in Hin as ->. done.
Qed.

Lemma final_model_saved_beside_partial_witness :
  ∃ st',
    run ex_data ex_train false ex_quiet_callbacks (ex_files 5 3 None) = (Ok tt, st') ∧
    model_file ≠ partial_file ∧
    files st' !! model_file = Some (H5 106%Z) ∧
    List.filter (any_save string unit) (log st') = [Save model_file] ∧
    loads_of partial_file (log st') = 1%nat ∧
    saves_of partial_file (log st') = 0%nat ∧
    files st' !! partial_file = ex_files 5 3 None !! partial_file ∧
    files st' !! partial_file = Some (H5 100%Z).
Proof.
  destruct (final_model_saved_beside_partial Z string unit ex_data ex_train false
              ex_quiet_callbacks (ex_files 5 3 None) (ex_contents 5 3 None))
    as (st' & Hrun & Hne & Hmodel & _ & Hsaves & Hloads & Hwrites & _ & Hkeep).
  - split; reflexivity.
  - destruct (Hkeep (ex_quiet_callbacks_keep partial_file)) as [Hsame Hpartial].
    exists st'. repeat split; assumption.
Defined.

(** With the checkpointing callback of the specification the partial
    artifact does not survive training: resuming three epochs done out of
    five, the file that held the loaded weights holds afterwards the weights
    checkpointed after the last epoch.  That is the work of the callback;
    the script's own save goes to [model.h5]. *)
Example ex_checkpoint_callback_overwrites_partial :
  (ex_run 5 3 None).1 = Ok tt ∧
  ex_files 5 3 None !! partial_file = Some (H5 100%Z) ∧
  files (ex_run 5 3 None).2 !! partial_file = Some (H5 106%Z) ∧
  List.filter (any_save string unit) (log (ex_run 5 3 None).2) = [Save model_file].
Proof. vm_compute. done. Qed.

(** ** The resume-training script on an arbitrary directory *)

Section Failures.

Variable weights : Type.
Variable pipeline : Type.
Variable sample : Type.
Variable full_data : dataset sample.
Variable train_epoch : generator pipeline sample → weights → weights.

(** The files without which the script cannot run; the restricted-data
    marker is not one of them. *)
Definition required_files : list string :=
  [hp_file; w2v_file; pse_file; le_file; done_file; partial_file].

(** Events of the loading phase: nothing is trained or written. *)
Definition reading (e : event pipeline sample) : bool :=
  match e with
  | Load _ | Print _ | LoadData _ => true
  | _ => false
  end.

(** Whether a file of the directory holds the kind of value the script
    expects from it. *)
Definition kind_ok (path : string) (a : artifact weights pipeline) : bool :=
  if bool_decide (path = hp_file) then
    match a with Tuple _ => true | _ => false end
  else if bool_decide (path = encs_file) then
    match a with Encs _ => true | _ => false end
  else if bool_decide (path = done_file) then
    match a with Int _ => true | _ => false end
  else if bool_decide (path = partial_file) then
    match a with H5 _ => true | _ => false end
  else
    match a with Fitted _ => true | _ => false end.

(** What an exception of the script says about the directory. *)
Definition blame (fs : gmap string (artifact weights pipeline)) (e : error) : Prop :=
  match e with
  | FileNotFoundError path => path ∈ required_files ∧ fs !! path = None
  | UnpicklingError path => ∃ a, fs !! path = Some a ∧ kind_ok path a = false
  | ValueError _ => ∃ items, fs !! hp_file = Some (Tuple items) ∧ length items ≠ 4%nat
  | _ => False
  end.

Ltac eval_run :=
  unfold run, resume_training, resume_with, choose_enc_file, load_data, load_pipeline,
    load_int, load_model, fit_generator, model_save, print, emit, isfile, load, unpack4,
    bind, ret, throw;
  repeat (progress
    (cbn [files log fst snd];
     repeat match goal with
       | H : ?fs !! ?p = _ |- context [?fs !! ?p] => rewrite H
       end;
     rewrite ?bool_decide_eq_true_2 by (by eexists);
     rewrite ?bool_decide_eq_false_2 by (by intros [? ?]))).

Ltac solve_blame :=
  cbn [blame];
  first
    [ split; [repeat first [by left | right] | assumption]
    | eexists; split; [eassumption | reflexivity]
    | eexists; split; [eassumption | cbn; lia] ].

Ltac solve_failure :=
  right; eexists _, _; split;
  [ intros; eval_run; reflexivity
  | split; [reflexivity | solve_blame] ].

Lemma run_cases (fs : gmap string (artifact weights pipeline)) :
  (∃ c, holds fs c) ∨
  (∃ e l,
     (∀ in_ipynb n_callbacks,
        run full_data train_epoch in_ipynb n_callbacks fs = (Raise e, State fs l)) ∧
     forallb reading l = true ∧
     blame fs e).
Proof.
  destruct (fs !! hp_file) as [[items| | | |]|] eqn:Hhp; try solve [solve_failure].
  destruct items as [|total [|batch [|seqlen [|dim [|x items]]]]];
    try solve [solve_failure].
  destruct (fs !! encs_file) as [[|encs| | |]|] eqn:Hencs; try solve [solve_failure].
  all: destruct (fs !! w2v_file) as [[| |w2v| |]|] eqn:Hw2v; try solve [solve_failure].
  all: destruct (fs !! pse_file) as [[| |pse| |]|] eqn:Hpse; try solve [solve_failure].
  all: destruct (fs !! le_file) as [[| |le| |]|] eqn:Hle; try solve [solve_failure].
  all: destruct (fs !! done_file) as [[| | |completed|]|] eqn:Hdone;
    try solve [solve_failure].
  all: destruct (fs !! partial_file) as [[| | | |w]|] eqn:Hpartial;
    try solve [solve_failure].
  - left. exists (Contents total batch seqlen dim (Some encs) w2v pse le completed w).
    by split.
  - left. exists (Contents total batch seqlen dim None w2v pse le completed w).
    by split.
Qed.

Lemma reading_no_training (l : list (event pipeline sample)) :
  forallb reading l = true →
  epochs_run l = [] ∧ epochs_requested l = [] ∧ List.filter (any_save pipeline sample) l = [].
Proof.
  induction l as [|e l IH]; [done|]. cbn [forallb]. intros [He Hl]%andb_true_iff.
  destruct (IH Hl) as (IH1 & IH2 & IH3).
  destruct e; try discriminate He; cbn; by rewrite ?IH3.
Qed.

Lemma holds_required (fs : gmap string (artifact weights pipeline)) c p :
  holds fs c → p ∈ required_files → is_Some (fs !! p).
Proof.
  intros [Hhp _ Hw2v Hpse Hle Hdone Hpartial] Hin. unfold required_files in Hin.
  repeat (apply elem_of_cons in Hin as [->|Hin]; [by eexists|]).
  by apply elem_of_nil in Hin.
Qed.


(** X1.  A run that succeeds has read each of the six required files
    exactly once, and has written none of them. *)
Theorem successful_run_reads_required_files_once in_ipynb n_callbacks
    (fs : gmap string (artifact weights pipeline)) path :
  (run full_data train_epoch in_ipynb n_callbacks fs).1 = Ok tt →
  path ∈ required_files →
  loads_of path (log (run full_data train_epoch in_ipynb n_callbacks fs).2) = 1%nat ∧
  saves_of path (log (run full_data train_epoch in_ipynb n_callbacks fs).2) = 0%nat.
Proof.
  intros Hrun Hin.
  destruct (run_cases fs) as [[c Hc]|(e & l & Hraise & _)];
    [|by rewrite Hraise in Hrun].
  rewrite (run_holds _ _ _ _ _ _ _ _ _ Hc). cbn [snd log].
  unfold loads_of, saves_of. rewrite !filter_log by done.
  unfold required_files in Hin. unfold loading_events, marker_events.
  repeat (apply elem_of_cons in Hin as [->|Hin]; [by destruct (c_marker _ _ c)|]).
  by apply elem_of_nil in Hin.
Qed.

(** X2.  A missing file stops the run before training.  On a directory
    that lacks one of the six required files the run raises, and by then
    nothing has been written: the directory is as it was, [fit_generator]
    was not called, no epoch was trained and no file was saved. *)
Theorem missing_file_stops_before_training in_ipynb n_callbacks
    (fs : gmap string (artifact weights pipeline)) path :
  path ∈ required_files →
  fs !! path = None →
  is_ok (run full_data train_epoch in_ipynb n_callbacks fs).1 = false ∧
  files (run full_data train_epoch in_ipynb n_callbacks fs).2 = fs ∧
  epochs_requested (log (run full_data train_epoch in_ipynb n_callbacks fs).2) = [] ∧
  epochs_run (log (run full_data train_epoch in_ipynb n_callbacks fs).2) = [] ∧
  List.filter (any_save pipeline sample) (log (run full_data train_epoch in_ipynb n_callbacks fs).2) = [].
Proof.
  intros Hin Hnone. destruct (run_cases fs) as [[c Hc]|(e & l & Hrun & Hl & _)].
  - destruct (holds_required fs c path Hc Hin) as [a Ha]. congruence.
  - rewrite Hrun. cbn [fst snd files log is_ok].
    destruct (reading_no_training l Hl) as (H1 & H2 & H3). by rewrite H1, H2, H3.
Qed.

(** X3.  Missing files.  A run on a directory that lacks one of the six
    required files raises; and when a run raises [FileNotFoundError] the
    file it names is one of the six and is really absent.  The marker
    file is never reported missing. *)
Theorem missing_file_is_fatal_and_reported in_ipynb n_callbacks
    (fs : gmap string (artifact weights pipeline)) path :
  (path ∈ required_files → fs !! path = None →
     is_ok (run full_data train_epoch in_ipynb n_callbacks fs).1 = false) ∧
  ((run full_data train_epoch in_ipynb n_callbacks fs).1 = Raise (FileNotFoundError path) →
     path ∈ required_files ∧ fs !! path = None ∧ path ≠ encs_file).
Proof.
  destruct (run_cases fs) as [[c Hc]|(e & l & Hrun & _ & Hblame)].
  - split.
    + intros Hin Hnone. destruct (holds_required fs c path Hc Hin) as [a Ha]. congruence.
    + by rewrite (run_holds _ _ _ _ _ _ _ _ _ Hc).
  - rewrite Hrun. cbn [fst]. split; [done|].
    intros [= ->]. destruct Hblame as [Hin Hnone]. repeat split; try done.
    intros ->. unfold required_files in Hin.
    repeat (apply elem_of_cons in Hin as [Heq|Hin]; [by vm_compute in Heq|]).
    by apply elem_of_nil in Hin.
Qed.

(** X4.  The hyper-parameter tuple must have four components: on a
    directory whose [hp.joblib] holds a tuple of another length the run
    raises [ValueError] right after reading that file; nothing else is read
    and nothing is written. *)
Theorem wrong_arity_is_value_error in_ipynb n_callbacks
    (fs : gmap string (artifact weights pipeline)) items :
  fs !! hp_file = Some (Tuple items) →
  length items ≠ 4%nat →
  run full_data train_epoch in_ipynb n_callbacks fs = (Raise (ValueError "unpack"), State fs [Load hp_file]).
Proof.
  intros Hhp Hlen.
  destruct items as [|a [|b [|c [|d [|x items]]]]]; try done; by eval_run.
Qed.

(** X5.  The only file the script itself writes is [model.h5]: any other
    path that the callbacks leave alone holds after the run, successful or
    not, what it held before. *)
Theorem run_writes_only_model_file in_ipynb n_callbacks
    (fs : gmap string (artifact weights pipeline)) path :
  path ≠ model_file →
  callbacks_keep weights pipeline path n_callbacks →
  files (run full_data train_epoch in_ipynb n_callbacks fs).2 !! path = fs !! path.
Proof.
  intros Hne Hkeep. destruct (run_cases fs) as [[c Hc]|(e & l & Hrun & _)].
  - rewrite (run_holds _ _ _ _ _ _ _ _ _ Hc). cbn [snd files].
    rewrite lookup_insert_ne by done. unfold after_training.
    apply checkpointed_keep. intros cb ep w' fs' Hin. by eapply Hkeep.
  - by rewrite Hrun.
Qed.

(** The log with the verbosity of the [fit_generator] call masked. *)
Definition mask_verbose (e : event pipeline sample) : event pipeline sample :=
  match e with
  | Fit gen epochs _ => Fit gen epochs 0
  | _ => e
  end.

(** X6.  Notebook detection only selects the verbosity handed to Keras:
    run inside or outside a notebook, the script raises or succeeds alike,
    leaves the same directory and logs the same events, up to the
    [verbose] argument of [fit_generator], which is 2 inside and 1
    outside. *)
Theorem notebook_only_changes_verbosity n_callbacks
    (fs : gmap string (artifact weights pipeline)) :
  (run full_data train_epoch true n_callbacks fs).1
    = (run full_data train_epoch false n_callbacks fs).1 ∧
  files (run full_data train_epoch true n_callbacks fs).2
    = files (run full_data train_epoch false n_callbacks fs).2 ∧
  mask_verbose <$> log (run full_data train_epoch true n_callbacks fs).2
    = mask_verbose <$> log (run full_data train_epoch false n_callbacks fs).2 ∧
  (∀ gen epochs v,
     Fit gen epochs v ∈ log (run full_data train_epoch true n_callbacks fs).2 → v = 2%Z) ∧
  (∀ gen epochs v,
     Fit gen epochs v ∈ log (run full_data train_epoch false n_callbacks fs).2 → v = 1%Z).
Proof.
  destruct (run_cases fs) as [[c Hc]|(e & l & Hrun & Hl & _)].
  - rewrite !(run_holds _ _ _ _ _ _ _ _ _ Hc). cbn [fst snd files log].
    split; [done|]. split; [done|]. split.
    { rewrite !fmap_app. done. }
    assert (Hfit : ∀ b gen epochs v,
      Fit gen epochs v ∈ loading_events weights pipeline sample c ++
        [Fit (generator_of weights pipeline sample full_data c)
             (remaining weights pipeline c) (verbose b)] ++
        (Epoch <$> seqZ 0 (remaining weights pipeline c)) ++ [Save model_file] →
      v = verbose b).
    { intros b gen epochs v. rewrite !elem_of_app.
      intros [Hin|[Hin|[Hin|Hin]]].
      - unfold loading_events, marker_events in Hin.
        destruct (c_marker weights pipeline c);
          repeat (apply elem_of_cons in Hin as [Heq|Hin]; [discriminate Heq|]);
          by apply elem_of_nil in Hin.
      - apply list_elem_of_singleton in Hin. by injection Hin as _ _ ->.
      - apply list_elem_of_fmap in Hin as (i & Heq & _). discriminate Heq.
      - apply list_elem_of_singleton in Hin. discriminate Hin. }
    split; intros gen epochs v Hin; by apply Hfit in Hin.
  - rewrite !Hrun. cbn [fst snd files log]. repeat split; try done.
    + intros gen epochs v Hin. apply list_elem_of_In in Hin.
      rewrite forallb_forall in Hl. by apply Hl in Hin.
    + intros gen epochs v Hin. apply list_elem_of_In in Hin.
      rewrite forallb_forall in Hl. by apply Hl in Hin.
Qed.

End Failures.

(** A directory without its counter file. *)
Definition ex_broken : gmap string (artifact Z string) :=
  delete done_file (ex_files 5 3 None).


(** The values of the bundle in the call of [fit_generator]: five epochs
    less three done, batches of 32, sequences of 30, embeddings of 64. *)
Example ex_fit_call :
  fit_calls (log (ex_run 5 3 None).2)
  = [(TransformedGenerator string unit "w2v" "pse" "le" ex_data 64 30 32, 2%Z)].
Proof. vm_compute. done. Qed.

Lemma successful_run_reads_required_files_once_witness :
  loads_of done_file (log (ex_run 5 3 None).2) = 1%nat ∧
  saves_of done_file (log (ex_run 5 3 None).2) = 0%nat.
Proof.
  apply (successful_run_reads_required_files_once Z string unit ex_data ex_train false
           callbacks (ex_files 5 3 None) done_file).
  - vm_compute. reflexivity.
  - apply (bool_decide_unpack _). vm_compute. exact I.
Defined.

Lemma missing_file_stops_before_training_witness :
  is_ok (run ex_data ex_train false callbacks ex_broken).1 = false ∧
  files (run ex_data ex_train false callbacks ex_broken).2 = ex_broken ∧
  epochs_requested (log (run ex_data ex_train false callbacks ex_broken).2) = [] ∧
  epochs_run (log (run ex_data ex_train false callbacks ex_broken).2) = [] ∧
  List.filter (any_save string unit)
    (log (run ex_data ex_train false callbacks ex_broken).2) = [].
Proof.
  apply (missing_file_stops_before_training Z string unit ex_data ex_train false callbacks
           ex_broken done_file).
  - apply (bool_decide_unpack _). vm_compute. exact I.
  - vm_compute. reflexivity.
Defined.

Lemma run_writes_only_model_file_witness :
  files (ex_run 5 3 None).2 !! w2v_file = ex_files 5 3 None !! w2v_file.
Proof.
  apply (run_writes_only_model_file Z string unit ex_data ex_train false callbacks
           (ex_files 5 3 None) w2v_file).
  - vm_compute. discriminate.
  - apply callbacks_keep_callbacks; vm_compute; discriminate.
Defined.

Lemma wrong_arity_is_value_error_witness :
  run ex_data ex_train false callbacks (<[hp_file := Tuple [5; 32; 30]%Z]> (ex_files 5 3 None))
  = (Raise (ValueError "unpack"),
     State (<[hp_file := Tuple [5; 32; 30]%Z]> (ex_files 5 3 None)) [Load hp_file]).
Proof.
  apply (wrong_arity_is_value_error Z string unit ex_data ex_train false callbacks
           (<[hp_file := Tuple [5; 32; 30]%Z]> (ex_files 5 3 None)) [5; 32; 30]%Z).
  - vm_compute. reflexivity.
  - simpl. lia.
Defined.

End Resume.

(** ** The embedding and clustering grid-search script *)

Module W2V.

(** *** Sorting by a key

    [sorted(d.items())] of the parameter grid and
    [DataFrame.sort_values(by=...)] both order rows by a key; insertion
    keeps the rows of equal key in their order of arrival. *)

Section SortBy.
Context {A : Type} (le_key : A → A → bool).

Fixpoint insert_by (a : A) (l : list A) : list A :=
  match l with
  | [] => [a]
  | b :: l' => if le_key a b then a :: b :: l' else b :: insert_by a l'
  end.

Definition sort_by (l : list A) : list A := foldr insert_by [] l.

End SortBy.

(** *** Parameter grids (lines 51-70)

    A value of the grids is a number; [0.01] and [0.013] are kept as the
    decimal fractions they denote. *)

Definition params : Type := list (string * Q).

Definition W2V_GRID : list (string * list Q) :=
  [ ("w2v__alpha", [1 # 100; 13 # 1000]);
    ("w2v__iter", [32 # 1; 64 # 1]);
    ("w2v__size", [64 # 1; 256 # 1]);
    ("w2v__hs", [0 # 1; 1 # 1]);
    ("w2v__sg", [0 # 1; 1 # 1]);
    ("w2v__min_count", [5 # 1]);
    ("w2v__workers", [1 # 1]) ]%Q.

Definition CLUST_GRID : list (string * list Q) :=
  [ ("ac__n_clusters",
     [5 # 1; 6 # 1; 7 # 1; 8 # 1; 9 # 1; 10 # 1; 11 # 1; 12 # 1; 13 # 1; 14 # 1; 15 # 1]) ]%Q.

(** scikit-learn's [ParameterGrid]: the keys are sorted, then the
    candidates are enumerated as their product, the last key varying
    fastest. *)
Fixpoint product (items : list (string * list Q)) : list params :=
  match items with
  | [] => [[]]
  | (k, vs) :: rest =>
      v ← vs; (λ p, (k, v) :: p) <$> product rest
  end.

Definition ParameterGrid (grid : list (string * list Q)) : list params :=
  product (sort_by (λ a b, String.leb a.1 b.1) grid).

(** *** The scoring functions (lines 115-125) *)

(** One section of the report of gensim's [wv.accuracy(analogy_file)]. *)
Record section : Type := Section_ {
  section_name : string;
  correct : list (string * string * string * string);
  incorrect : list (string * string * string * string)
}.

(** gensim returns the sections of the analogy file in order, followed by
    an entry ['total'] that gathers all of them. *)
Definition total (sections : list section) : section :=
  Section_ "total" (sections ≫= correct) (sections ≫= incorrect).

Definition wv_accuracy (sections : list section) : list section :=
  sections ++ [total sections].

(** Python's [a / b] on two integers. *)
Definition truediv (a b : Z) : result Q :=
  if (b =? 0)%Z then Raise ZeroDivisionError
  else Ok (inject_Z a / inject_Z b)%Q.

(** [accuracy_scorer_gensim(pipe)]; [acc_dict] is what the fitted
    model's [wv.accuracy] returned, and the function reads its entry 1. *)
Definition accuracy_scorer_gensim (acc_dict : list section) : result Q :=
  match acc_dict !! 1%nat with
  | None => Raise IndexError
  | Some entry =>
      truediv (Z.of_nat (length (correct entry)))
              (Z.of_nat (length (correct entry)) + Z.of_nat (length (incorrect entry)))
  end.

(** *** scikit-learn's [GridSearchCV(..., cv=3, refit=..., error_score=0)]

    [fit_and_score c k] is the outcome of fitting candidate [c] on the
    training part of fold [k] and scoring it; a failure that the search
    catches is recorded with [error_score].  The mean of a candidate is the
    plain average of its folds, the candidates are ranked by decreasing
    mean, and the best one is the first of rank 1.

    In this section the scores are the exact rationals that the floats of
    the search round: that is enough for the shape of the tables of results
    and for bounds on the scores.  Which candidate is selected depends on
    the rounding, and is studied in [Binary64] below. *)

Definition cv : nat := 3.
Definition error_score : Q := 0.

Section GridSearch.

Variable candidates : list params.
Variable fit_and_score : params → nat → result Q.

Definition split_test_score (c : params) (k : nat) : Q :=
  match fit_and_score c k with
  | Ok s => s
  | Raise _ => error_score
  end.

Definition split_test_scores (c : params) : list Q :=
  split_test_score c <$> seq 0 cv.

Definition Qsum (l : list Q) : Q := foldr Qplus 0%Q l.

Definition mean_test_score (c : params) : Q :=
  (Qsum (split_test_scores c) / inject_Z (Z.of_nat cv))%Q.

Definition lt_bool (a b : Q) : bool := negb (Qle_bool b a).

(** [rankdata(-means, method='min')]: one more than the number of
    strictly better means. *)
Definition rank (means : list Q) (m : Q) : nat :=
  S (length (List.filter (lt_bool m) means)).

Definition rank_test_score : list nat :=
  let means := mean_test_score <$> candidates in rank means <$> means.

(** [numpy.argmin]: the first index of the least element. *)
Fixpoint argmin_from (best_i best i : nat) (l : list nat) : nat :=
  match l with
  | [] => best_i
  | x :: l' =>
      if (x <? best)%nat then argmin_from i x (S i) l'
      else argmin_from best_i best (S i) l'
  end.

Definition argmin (l : list nat) : option nat :=
  match l with
  | [] => None
  | x :: l' => Some (argmin_from 0 x 1 l')
  end.

Definition best_index_ : option nat := argmin rank_test_score.

Definition best_params_ : option params :=
  i ← best_index_; candidates !! i.

(** A candidate errored when all its folds failed. *)
Definition errored (c : params) : Prop :=
  ∀ k, (k < cv)%nat → is_ok (fit_and_score c k) = false.

End GridSearch.

(** *** The two searches of the script (lines 134-135 and 181-182) *)

Definition result_bind {A B} (r : result A) (k : A → result B) : result B :=
  match r with
  | Ok a => k a
  | Raise e => Raise e
  end.

Section Searches.

(** A point of the reduced space; its coordinates are floats. *)
Variable coord : Type.
Definition point : Type := coord * coord * coord.

(** What the libraries compute: the sections of the analogy file as
    evaluated by the word2vec model fitted with candidate [c] on the
    training part of fold [k] (or the failure of that fit), the three folds
    of the reduced vectors, agglomerative clustering, and the silhouette
    score of a labelling. *)
Variable w2v_analogies : params → nat → result (list section).
Variable fold : nat → list point.
Variable fit_predict : params → list point → result (list Z).
Variable silhouette_score : list point → list Z → result Q.

(** [silhouette_scorer_cosine(pipe, X)]. *)
Definition silhouette_scorer_cosine (c : params) (X : list point) : result Q :=
  result_bind (fit_predict c X) (λ clusters, silhouette_score X clusters).

Definition w2v_fit_and_score (c : params) (k : nat) : result Q :=
  result_bind (w2v_analogies c k) (λ sections,
    accuracy_scorer_gensim (wv_accuracy sections)).

Definition clust_fit_and_score (c : params) (k : nat) : result Q :=
  silhouette_scorer_cosine c (fold k).

Definition w2v_best_params_ : option params :=
  best_params_ (ParameterGrid W2V_GRID) w2v_fit_and_score.

Definition clust_best_params_ : option params :=
  best_params_ (ParameterGrid CLUST_GRID) clust_fit_and_score.

(** *** The table of clustered coordinates (lines 237-245) *)

Record row : Type := Row {
  row_x : coord;
  row_y : coord;
  row_z : coord;
  row_cluster : Z;
  row_entity : string
}.

(** Python's [zip] of three sequences stops at the shortest. *)
Fixpoint zip3 {A B C} (l1 : list A) (l2 : list B) (l3 : list C) : list (A * B * C) :=
  match l1, l2, l3 with
  | a :: l1', b :: l2', c :: l3' => (a, b, c) :: zip3 l1' l2' l3'
  | _, _, _ => []
  end.

Definition graph_data (umap_vectors : list point) (clusters : list Z)
    (index2entity : list string) : list row :=
  (λ '(umapcoords, cluster, entity),
     Row umapcoords.1.1 umapcoords.1.2 umapcoords.2 cluster entity)
  <$> zip3 umap_vectors clusters index2entity.

(** [pd.DataFrame(data)]: the rows, labelled by their position. *)
Definition DataFrame (data : list row) : list (nat * row) :=
  imap (λ i r, (i, r)) data.

Definition sort_values_by_cluster (df : list (nat * row)) : list (nat * row) :=
  sort_by (λ a b, (row_cluster a.2 <=? row_cluster b.2)%Z) df.

(** The frame that [to_csv] writes to [graph_dataframe.csv], row by row. *)
Definition graph_data_df (umap_vectors : list point) (clusters : list Z)
    (index2entity : list string) : list (nat * row) :=
  sort_values_by_cluster (DataFrame (graph_data umap_vectors clusters index2entity)).

(** Rows in non-decreasing order of their cluster. *)
Definition cluster_le (a b : nat * row) : Prop :=
  (row_cluster a.2 ≤ row_cluster b.2)%Z.

End Searches.

(** *** Sorting by a key: order and content *)

Section SortByFacts.
Context {A : Type} (le_key : A → A → bool) (R : A → A → Prop).
Hypothesis le_key_true : ∀ a b, le_key a b = true → R a b.
Hypothesis le_key_false : ∀ a b, le_key a b = false → R b a.

Lemma insert_by_perm a l : insert_by le_key a l ≡ₚ a :: l.
Proof.
  induction l as [|b l IH]; cbn; [done|].
  destruct (le_key a b); [done|]. rewrite IH. apply perm_swap.
Qed.

Lemma sort_by_perm l : sort_by le_key l ≡ₚ l.
Proof.
  induction l as [|a l IH]; cbn; [done|].
  rewrite insert_by_perm. by constructor.
Qed.

Lemma insert_by_hd a b l : R b a → HdRel R b l → HdRel R b (insert_by le_key a l).
Proof.
  intros Hba Hhd. destruct l as [|x l]; cbn; [by constructor|].
  destruct (le_key a x); constructor; [done|]. by inversion Hhd.
Qed.

Lemma insert_by_sorted a l : Sorted R l → Sorted R (insert_by le_key a l).
Proof.
  induction 1 as [|b l Hs IH Hhd]; cbn; [by repeat constructor|].
  destruct (le_key a b) eqn:Hab.
  - constructor; [by constructor|]. constructor. by apply le_key_true.
  - constructor; [done|]. apply insert_by_hd; [by apply le_key_false|done].
Qed.

Lemma sort_by_sorted l : Sorted R (sort_by le_key l).
Proof.
  induction l as [|a l IH]; cbn; [constructor|]. by apply insert_by_sorted.
Qed.

End SortByFacts.

(** *** [argmin]: the first least element *)

Lemma argmin_from_spec (pre l : list nat) (bi b : nat) :
  pre !! bi = Some b →
  (∀ j v, pre !! j = Some v → (b ≤ v)%nat ∧ ((j < bi)%nat → (b < v)%nat)) →
  ∃ br, (pre ++ l) !! argmin_from bi b (length pre) l = Some br ∧
        ∀ j v, (pre ++ l) !! j = Some v →
               (br ≤ v)%nat ∧ ((j < argmin_from bi b (length pre) l)%nat → (br < v)%nat).
Proof.
  revert pre bi b. induction l as [|x l IH]; intros pre bi b Hbi Hpre.
  - cbn. rewrite app_nil_r. eauto.
  - cbn [argmin_from].
    replace (pre ++ x :: l) with ((pre ++ [x]) ++ l) by (by rewrite <- app_assoc).
    replace (S (length pre)) with (length (pre ++ [x])) by (rewrite length_app; cbn; lia).
    assert (Hlt : (bi < length pre)%nat) by (by eapply lookup_lt_Some).
    destruct (Nat.ltb_spec x b) as [Hxb|Hbx].
    + apply IH.
      * by rewrite lookup_app_r, Nat.sub_diag by lia.
      * intros j v Hj. destruct (decide (j < length pre)%nat) as [Hjl|Hjl].
        -- rewrite lookup_app_l in Hj by done. destruct (Hpre j v Hj). lia.
        -- rewrite lookup_app_r in Hj by lia.
           destruct (j - length pre)%nat eqn:Hd; [|by destruct n].
           injection Hj as <-. lia.
    + apply IH.
      * by rewrite lookup_app_l.
      * intros j v Hj. destruct (decide (j < length pre)%nat) as [Hjl|Hjl].
        -- rewrite lookup_app_l in Hj by done. by apply Hpre.
        -- rewrite lookup_app_r in Hj by lia.
           destruct (j - length pre)%nat eqn:Hd; [|by destruct n].
           injection Hj as <-. lia.
Qed.

Lemma argmin_spec (l : list nat) i :
  argmin l = Some i →
  ∃ r, l !! i = Some r ∧
       ∀ j v, l !! j = Some v → (r ≤ v)%nat ∧ ((j < i)%nat → (r < v)%nat).
Proof.
  destruct l as [|x l]; [done|]. cbn [argmin]. intros [= <-].
  apply (argmin_from_spec [x] l 0 x); [done|].
  intros [|j] v Hj; [|done]. injection Hj as <-. lia.
Qed.

Lemma argmin_is_Some (l : list nat) : l ≠ [] → is_Some (argmin l).
Proof. destruct l; [done|]. by eexists. Qed.

(** *** Ranks and the best candidate *)

Lemma lt_bool_false a b : lt_bool a b = false ↔ (b <= a)%Q.
Proof.
  unfold lt_bool. rewrite negb_false_iff. apply Qle_bool_iff.
Qed.

Lemma max_exists (l : list Q) :
  l ≠ [] → ∃ M, M ∈ l ∧ ∀ m, m ∈ l → (m <= M)%Q.
Proof.
  induction l as [|a l IH]; [done|]. intros _.
  destruct l as [|b l].
  - exists a. split; [by left|]. intros m ->%list_elem_of_singleton. apply Qle_refl.
  - destruct IH as (M & HM & Hall); [done|].
    destruct (Qlt_le_dec M a) as [Hlt|Hle].
    + exists a. split; [by left|]. intros m [->|Hm]%elem_of_cons; [apply Qle_refl|].
      apply Qlt_le_weak. eapply Qle_lt_trans; [by apply Hall|done].
    + exists M. split; [by right|]. intros m [->|Hm]%elem_of_cons; [done|by apply Hall].
Qed.

Lemma rank_one means m :
  rank means m = 1%nat ↔ ∀ m', m' ∈ means → (m' <= m)%Q.
Proof.
  unfold rank. split.
  - intros Hlen m' Hin. apply lt_bool_false.
    destruct (lt_bool m m') eqn:Hlt; [|done].
    assert (Hf : List.In m' (List.filter (lt_bool m) means)).
    { apply List.filter_In. split; [by apply list_elem_of_In|done]. }
    destruct (List.filter (lt_bool m) means); [done|]. cbn in Hlen. lia.
  - intros Hall. f_equal. induction means as [|a means IH]; [done|]. cbn.
    rewrite (proj2 (lt_bool_false m a)) by (apply Hall; by left).
    apply IH. intros m' Hin. apply Hall. by right.
Qed.

(** *** The table: one row per zipped triple *)

Section TableFacts.

Variable coord : Type.

Lemma zip3_lookup {A B C} (l1 : list A) (l2 : list B) (l3 : list C) i a b c :
  zip3 l1 l2 l3 !! i = Some (a, b, c) ↔
  l1 !! i = Some a ∧ l2 !! i = Some b ∧ l3 !! i = Some c.
Proof.
  revert l2 l3 i. induction l1 as [|a1 l1 IH]; intros l2 l3 i.
  - cbn. split; [done|]. by intros [? _].
  - destruct l2 as [|b2 l2]; [cbn; split; [done|]; by intros (_ & ? & _)|].
    destruct l3 as [|c3 l3]; [cbn; split; [done|]; by intros (_ & _ & ?)|].
    destruct i as [|i]; cbn.
    + split; [by intros [= -> -> ->]|by intros ([= ->] & [= ->] & [= ->])].
    + apply IH.
Qed.

Lemma zip3_length {A B C} (l1 : list A) (l2 : list B) (l3 : list C) :
  length l1 = length l3 → length l2 = length l3 →
  length (zip3 l1 l2 l3) = length l3.
Proof.
  revert l2 l3. induction l1 as [|a l1 IH]; intros [|b l2] [|c l3]; cbn; try done.
  intros [= H1] [= H2]. f_equal. by apply IH.
Qed.

Lemma DataFrame_labels_from (n : nat) (data : list (row coord)) :
  (imap (λ i r, ((n + i)%nat, r)) data).*1 = seq n (length data).
Proof.
  revert n. induction data as [|r data IH]; intros n; [done|].
  rewrite imap_cons. cbn. rewrite Nat.add_0_r. f_equal.
  rewrite <- (IH (S n)). f_equal. apply imap_ext. intros i x _. cbn. f_equal. lia.
Qed.

Lemma DataFrame_labels (data : list (row coord)) :
  (DataFrame coord data).*1 = seq 0 (length data).
Proof. apply (DataFrame_labels_from 0). Qed.

Lemma DataFrame_elem_of (data : list (row coord)) i r :
  (i, r) ∈ DataFrame coord data ↔ data !! i = Some r.
Proof.
  unfold DataFrame. rewrite elem_of_lookup_imap. split.
  - by intros (j & x & [= -> ->] & Hx).
  - intros Hr. by exists i, r.
Qed.

Lemma graph_data_lookup umap_vectors clusters index2entity i r :
  graph_data coord umap_vectors clusters index2entity !! i = Some r ↔
  ∃ p c e, umap_vectors !! i = Some p ∧ clusters !! i = Some c ∧
           index2entity !! i = Some e ∧ r = Row coord p.1.1 p.1.2 p.2 c e.
Proof.
  unfold graph_data. rewrite list_lookup_fmap_Some. split.
  - intros ([[p c] e] & -> & Hz). apply zip3_lookup in Hz as (? & ? & ?).
    by exists p, c, e.
  - intros (p & c & e & Hp & Hc & He & ->). exists (p, c, e).
    split; [done|]. by apply zip3_lookup.
Qed.

Lemma cluster_key_true (a b : nat * row coord) :
  (row_cluster coord a.2 <=? row_cluster coord b.2)%Z = true → cluster_le coord a b.
Proof. unfold cluster_le. lia. Qed.

Lemma cluster_key_false (a b : nat * row coord) :
  (row_cluster coord a.2 <=? row_cluster coord b.2)%Z = false → cluster_le coord b a.
Proof. unfold cluster_le. lia. Qed.

Lemma cluster_le_trans : Relations_1.Transitive (cluster_le coord).
Proof. intros a b c. unfold cluster_le. lia. Qed.

End TableFacts.

(** ** Properties of the grid-search script *)

(** C8.  The scorer has no guard on its denominator: when the entry it
    reads has no correct and no incorrect analogy, the division raises
    [ZeroDivisionError] and no accuracy is returned; that is the only way
    for the division to fail. *)
Theorem accuracy_scorer_zero_division (acc_dict : list section) (entry : section) :
  acc_dict !! 1%nat = Some entry →
  (correct entry = [] ∧ incorrect entry = [] →
     accuracy_scorer_gensim acc_dict = Raise ZeroDivisionError ∧
     is_ok (accuracy_scorer_gensim acc_dict) = false) ∧
  (accuracy_scorer_gensim acc_dict = Raise ZeroDivisionError →
     correct entry = [] ∧ incorrect entry = []).
Proof.
  intros Hentry. unfold accuracy_scorer_gensim, truediv. rewrite Hentry. split.
  - by intros [-> ->].
  - destruct (Z.eqb_spec (Z.of_nat (length (correct entry)) +
                          Z.of_nat (length (incorrect entry))) 0) as [H0|H0]; [|done].
    intros _. destruct (correct entry), (incorrect entry); cbn in H0; (done || lia).
Qed.

(** C10.  The frame written to [graph_dataframe.csv] is in non-decreasing
    order of cluster and is a rearrangement of the zipped rows.  When there
    is one reduced vector and one cluster label per entity of the
    vocabulary, it has one row per entity: the row labels are a
    rearrangement of [0 .. n-1], and the row labelled [i] is exactly the
    coordinates of vector [i], the cluster of vector [i] and entity [i]. *)
Theorem graph_dataframe_sorted_one_row_per_entity (coord : Type)
    (umap_vectors : list (point coord)) (clusters : list Z) (index2entity : list string) :
  length umap_vectors = length index2entity →
  length clusters = length index2entity →
  StronglySorted (cluster_le coord) (graph_data_df coord umap_vectors clusters index2entity) ∧
  graph_data_df coord umap_vectors clusters index2entity
    ≡ₚ DataFrame coord (graph_data coord umap_vectors clusters index2entity) ∧
  length (graph_data_df coord umap_vectors clusters index2entity) = length index2entity ∧
  (graph_data_df coord umap_vectors clusters index2entity).*1
    ≡ₚ seq 0 (length index2entity) ∧
  (∀ i e, index2entity !! i = Some e →
     ∃ p c, umap_vectors !! i = Some p ∧ clusters !! i = Some c ∧
            (i, Row coord p.1.1 p.1.2 p.2 c e)
              ∈ graph_data_df coord umap_vectors clusters index2entity) ∧
  (∀ i r, (i, r) ∈ graph_data_df coord umap_vectors clusters index2entity →
     ∃ p c e, umap_vectors !! i = Some p ∧ clusters !! i = Some c ∧
              index2entity !! i = Some e ∧ r = Row coord p.1.1 p.1.2 p.2 c e).
Proof.
  intros Hlen1 Hlen2. unfold graph_data_df, sort_values_by_cluster.
  set (df := DataFrame coord (graph_data coord umap_vectors clusters index2entity)).
  assert (Hperm : sort_by (λ a b, (row_cluster coord a.2 <=? row_cluster coord b.2)%Z) df
                  ≡ₚ df) by apply sort_by_perm.
  assert (Hlen : length (graph_data coord umap_vectors clusters index2entity)
                 = length index2entity).
  { unfold graph_data. rewrite length_fmap. by apply zip3_length. }
  split; [|split; [|split; [|split; [|split]]]].
  - apply Sorted_StronglySorted; [apply cluster_le_trans|].
    apply sort_by_sorted; [apply cluster_key_true|apply cluster_key_false].
  - done.
  - rewrite Hperm. unfold df, DataFrame. by rewrite length_imap.
  - rewrite Hperm. unfold df. by rewrite DataFrame_labels, Hlen.
  - intros i e He.
    destruct (lookup_lt_is_Some_2 umap_vectors i) as [p Hp].
    { rewrite Hlen1. by eapply lookup_lt_Some. }
    destruct (lookup_lt_is_Some_2 clusters i) as [c Hc].
    { rewrite Hlen2. by eapply lookup_lt_Some. }
    exists p, c. repeat split; try done.
    rewrite Hperm. apply DataFrame_elem_of, graph_data_lookup. by exists p, c, e.
  - intros i r Hin. rewrite Hperm in Hin.
    by apply DataFrame_elem_of, graph_data_lookup in Hin.
Qed.

(** *** Concrete searches and a concrete table *)

(** The scenario of the specification: two candidates scoring 0.7 and 0.9
    on every fold. *)
Definition ex_candidates : list params := [[("a", 1 # 1)]; [("a", 2 # 1)]]%Q.

Definition ex_score (c : params) (k : nat) : result Q :=
  match c with
  | [(_, v)] => if Qeq_bool v 1 then Ok (7 # 10)%Q else Ok (9 # 10)%Q
  | _ => Raise (ValueError "params")
  end.

Example ex_best_params : best_params_ ex_candidates ex_score = Some [("a", 2 # 1)%Q].
Proof. vm_compute. done. Qed.

Example ex_tie_first :
  best_index_ ex_candidates (λ _ _, Ok (1 # 2)%Q) = Some 0%nat.
Proof. vm_compute. done. Qed.

Example ex_grid_sizes :
  length (ParameterGrid W2V_GRID) = 32%nat ∧ length (ParameterGrid CLUST_GRID) = 11%nat.
Proof. vm_compute. done. Qed.

Example ex_accuracy :
  accuracy_scorer_gensim
    (wv_accuracy [Section_ "capitals" [("a", "b", "c", "d")]
                                      [("a", "b", "c", "e"); ("a", "b", "c", "f")]])
  = Ok (1 # 3)%Q.
Proof. vm_compute. done. Qed.

(** A clustering whose first candidate fails to fit, and an embedding
    search whose first candidate fails to fit and whose other candidates
    solve no analogy. *)
Definition cx_fold (k : nat) : list (point Z) := [(0, 0, 0); (1, 1, 1)]%Z.

Definition cx_fit_predict (c : params) (X : list (point Z)) : result (list Z) :=
  match c with
  | [(_, v)] =>
      if Qeq_bool v 5 then Raise (ValueError "fit_predict") else Ok ((λ _, 0%Z) <$> X)
  | _ => Raise (ValueError "params")
  end.

Definition params_eqb (a b : params) : bool :=
  bool_decide (a.*1 = b.*1) &&
  forallb (λ vw, Qeq_bool vw.1 vw.2) (zip a.*2 b.*2).

Definition cx_first : params := default [] (ParameterGrid W2V_GRID !! 0%nat).

Definition cx_analogies (c : params) (k : nat) : result (list section) :=
  if params_eqb c cx_first then Raise (ValueError "fit")
  else Ok [Section_ "capitals" [] [("a", "b", "c", "d")]].

Lemma accuracy_scorer_zero_division_witness :
  (correct (total [Section_ "capitals" [] []]) = [] ∧
   incorrect (total [Section_ "capitals" [] []]) = [] →
     accuracy_scorer_gensim (wv_accuracy [Section_ "capitals" [] []])
       = Raise ZeroDivisionError ∧
     is_ok (accuracy_scorer_gensim (wv_accuracy [Section_ "capitals" [] []])) = false) ∧
  (accuracy_scorer_gensim (wv_accuracy [Section_ "capitals" [] []])
     = Raise ZeroDivisionError →
   correct (total [Section_ "capitals" [] []]) = [] ∧
   incorrect (total [Section_ "capitals" [] []]) = []).
Proof.
  apply (accuracy_scorer_zero_division (wv_accuracy [Section_ "capitals" [] []])
           (total [Section_ "capitals" [] []])).
  reflexivity.
Defined.

Definition ex_umap_vectors : list (point Z) := [(1, 2, 3); (4, 5, 6); (7, 8, 9)]%Z.
Definition ex_clusters : list Z := [2; 0; 1]%Z.
Definition ex_index2entity : list string := ["aspirin"; "heparin"; "insulin"].

Example ex_graph_data_df :
  graph_data_df Z ex_umap_vectors ex_clusters ex_index2entity
  = [ (1%nat, Row Z 4 5 6 0 "heparin");
      (2%nat, Row Z 7 8 9 1 "insulin");
      (0%nat, Row Z 1 2 3 2 "aspirin") ]%Z.
Proof. vm_compute. done. Qed.

Lemma graph_dataframe_sorted_one_row_per_entity_witness :
  StronglySorted (cluster_le Z) (graph_data_df Z ex_umap_vectors ex_clusters ex_index2entity) ∧
  graph_data_df Z ex_umap_vectors ex_clusters ex_index2entity
    ≡ₚ DataFrame Z (graph_data Z ex_umap_vectors ex_clusters ex_index2entity) ∧
  length (graph_data_df Z ex_umap_vectors ex_clusters ex_index2entity) = 3%nat ∧
  (graph_data_df Z ex_umap_vectors ex_clusters ex_index2entity).*1 ≡ₚ seq 0 3 ∧
  (∀ i e, ex_index2entity !! i = Some e →
     ∃ p c, ex_umap_vectors !! i = Some p ∧ ex_clusters !! i = Some c ∧
            (i, Row Z p.1.1 p.1.2 p.2 c e)
              ∈ graph_data_df Z ex_umap_vectors ex_clusters ex_index2entity) ∧
  (∀ i r, (i, r) ∈ graph_data_df Z ex_umap_vectors ex_clusters ex_index2entity →
     ∃ p c e, ex_umap_vectors !! i = Some p ∧ ex_clusters !! i = Some c ∧
              ex_index2entity !! i = Some e ∧ r = Row Z p.1.1 p.1.2 p.2 c e).
Proof.
  apply (graph_dataframe_sorted_one_row_per_entity Z ex_umap_vectors ex_clusters
           ex_index2entity); reflexivity.
Defined.

(** ** More on the scoring function *)

Lemma truediv_not_IndexError a b : truediv a b ≠ Raise IndexError.
Proof. unfold truediv. by destruct (b =? 0)%Z. Qed.

Lemma truediv_Ok_inv a b q :
  truediv a b = Ok q → b ≠ 0%Z ∧ q = (inject_Z a / inject_Z b)%Q.
Proof.
  unfold truediv. destruct (Z.eqb_spec b 0) as [->|Hb]; [done|].
  by intros [= <-].
Qed.

Lemma Qdiv_nat_bounds (a b : nat) :
  (a + b)%nat ≠ 0%nat →
  (0 <= inject_Z (Z.of_nat a) / inject_Z (Z.of_nat a + Z.of_nat b) <= 1)%Q.
Proof.
  intros Hpos.
  assert (Hden : (0 < inject_Z (Z.of_nat a + Z.of_nat b))%Q).
  { change 0%Q with (inject_Z 0). rewrite <- Zlt_Qlt. lia. }
  split.
  - apply Qle_shift_div_l; [done|]. rewrite Qmult_0_l.
    change 0%Q with (inject_Z 0). rewrite <- Zle_Qle. lia.
  - apply Qle_shift_div_r; [done|]. rewrite Qmult_1_l. rewrite <- Zle_Qle. lia.
Qed.

Lemma scorer_Ok_inv acc_dict q :
  accuracy_scorer_gensim acc_dict = Ok q →
  ∃ entry, acc_dict !! 1%nat = Some entry ∧
    (length (correct entry) + length (incorrect entry))%nat ≠ 0%nat ∧
    q = (inject_Z (Z.of_nat (length (correct entry))) /
         inject_Z (Z.of_nat (length (correct entry)) +
                   Z.of_nat (length (incorrect entry))))%Q.
Proof.
  unfold accuracy_scorer_gensim. destruct (acc_dict !! 1%nat) as [entry|]; [|done].
  intros [Hden ->]%truediv_Ok_inv. exists entry. split; [done|]. split; [lia|done].
Qed.

(** X7.  The scorer raises [IndexError] exactly when the accuracy report
    has fewer than two entries; on a report made by gensim, which appends
    its total to the sections of the file, that is exactly when the analogy
    file has no section. *)
Theorem scorer_index_error_iff (acc_dict sections : list section) :
  (accuracy_scorer_gensim acc_dict = Raise IndexError ↔ (length acc_dict < 2)%nat) ∧
  (accuracy_scorer_gensim (wv_accuracy sections) = Raise IndexError ↔ sections = []).
Proof.
  assert (Hgen : ∀ l, accuracy_scorer_gensim l = Raise IndexError ↔ (length l < 2)%nat).
  { intros l. unfold accuracy_scorer_gensim. split.
    - destruct (l !! 1%nat) as [entry|] eqn:Hl.
      + intros H. by apply truediv_not_IndexError in H.
      + intros _. apply lookup_ge_None in Hl. lia.
    - intros Hlen. by rewrite (proj2 (lookup_ge_None l 1)) by lia. }
  split; [apply Hgen|]. rewrite Hgen. unfold wv_accuracy. rewrite length_app. cbn.
  destruct sections; cbn; split; (done || lia).
Qed.

(** X8.  Which analogies are scored.  For an analogy file of one section
    the score is the accuracy over the whole file.  For a file of two or
    more sections it is the accuracy of the second section alone: the first
    section and the sections after the second have no influence on it. *)
Theorem scorer_reads_second_entry (s0 s0' s1 : section) (rest rest' : list section) :
  accuracy_scorer_gensim (wv_accuracy [s1])
    = truediv (Z.of_nat (length (correct s1)))
              (Z.of_nat (length (correct s1)) + Z.of_nat (length (incorrect s1))) ∧
  accuracy_scorer_gensim (wv_accuracy (s0 :: s1 :: rest))
    = truediv (Z.of_nat (length (correct s1)))
              (Z.of_nat (length (correct s1)) + Z.of_nat (length (incorrect s1))) ∧
  accuracy_scorer_gensim (wv_accuracy (s0 :: s1 :: rest))
    = accuracy_scorer_gensim (wv_accuracy (s0' :: s1 :: rest')).
Proof.
  split; [|split].
  - unfold accuracy_scorer_gensim, wv_accuracy, total. cbn. by rewrite !app_nil_r.
  - done.
  - done.
Qed.

(** X9.  When the scorer returns a value, that value is 1 exactly when no
    analogy of the entry it reads was answered incorrectly, and 0 exactly
    when none was answered correctly. *)
Theorem scorer_extremes (acc_dict : list section) (entry : section) (q : Q) :
  acc_dict !! 1%nat = Some entry →
  accuracy_scorer_gensim acc_dict = Ok q →
  ((q == 1)%Q ↔ incorrect entry = []) ∧ ((q == 0)%Q ↔ correct entry = []).
Proof.
  intros Hentry (entry' & Hentry' & Hpos & ->)%scorer_Ok_inv.
  rewrite Hentry in Hentry'. injection Hentry' as <-.
  remember (length (correct entry)) as a eqn:Ha.
  remember (length (incorrect entry)) as b eqn:Hb.
  assert (Hden : ¬ (inject_Z (Z.of_nat a + Z.of_nat b) == 0)%Q).
  { change 0%Q with (inject_Z 0). rewrite inject_Z_injective. clear -Hpos. lia. }
  assert (Hcancel : ∀ n : Z,
    (inject_Z n / inject_Z (Z.of_nat a + Z.of_nat b)
     * inject_Z (Z.of_nat a + Z.of_nat b) == inject_Z n)%Q).
  { intros n. unfold Qdiv.
    by rewrite <- Qmult_assoc, (Qmult_comm (/ _)), Qmult_inv_r, Qmult_1_r. }
  split.
  - split.
    + intros Heq. apply (Qmult_inj_r _ _ _ Hden) in Heq.
      rewrite Qmult_1_l, Hcancel in Heq.
      apply (proj1 (inject_Z_injective _ _)) in Heq.
      apply nil_length_inv. lia.
    + intros Hnil. rewrite Hnil in Hb. cbn in Hb. subst b.
      rewrite Z.add_0_r. apply Qmult_inv_r.
      change 0%Q with (inject_Z 0). rewrite inject_Z_injective. cbn in Hpos. lia.
  - split.
    + intros Heq. apply (Qmult_inj_r _ _ _ Hden) in Heq.
      rewrite Qmult_0_l, Hcancel in Heq.
      change 0%Q with (inject_Z 0) in Heq. apply (proj1 (inject_Z_injective _ _)) in Heq.
      apply nil_length_inv. lia.
    + intros Hnil. rewrite Hnil in Ha. cbn in Ha. subst a.
      unfold Qdiv. by rewrite Qmult_0_l.
Qed.

(** ** More on the searches *)

Lemma Qmean3_bounds (lo hi s0 s1 s2 : Q) :
  (lo <= s0 <= hi)%Q → (lo <= s1 <= hi)%Q → (lo <= s2 <= hi)%Q →
  (lo <= (s0 + (s1 + (s2 + 0))) / inject_Z (Z.of_nat 3) <= hi)%Q.
Proof.
  intros [? ?] [? ?] [? ?].
  change (inject_Z (Z.of_nat 3)) with 3%Q.
  split.
  - apply Qle_shift_div_l; [done|]. lra.
  - apply Qle_shift_div_r; [done|]. lra.
Qed.

Lemma mean_test_score_bounds (f : params → nat → result Q) (c : params) (lo hi : Q) :
  (∀ k, (lo <= split_test_score f c k <= hi)%Q) →
  (lo <= mean_test_score f c <= hi)%Q.
Proof.
  intros Hall. unfold mean_test_score, split_test_scores, cv.
  cbn [seq fmap list_fmap Qsum foldr]. by apply Qmean3_bounds.
Qed.

Lemma w2v_split_bounds (w2v_analogies : params → nat → result (list section)) c k :
  (0 <= split_test_score (w2v_fit_and_score w2v_analogies) c k <= 1)%Q.
Proof.
  unfold split_test_score, w2v_fit_and_score, error_score.
  destruct (w2v_analogies c k) as [sections|e]; cbn [result_bind]; [|done].
  destruct (accuracy_scorer_gensim (wv_accuracy sections)) as [q|e] eqn:Hq; [|done].
  apply scorer_Ok_inv in Hq as (entry & _ & Hpos & ->). by apply Qdiv_nat_bounds.
Qed.

(** X10.  In the embedding search every recorded score lies between 0 and
    1, whether the fold failed or not, and so does the mean of every
    candidate, the selected one included. *)
Theorem recorded_accuracy_between_0_and_1
    (w2v_analogies : params → nat → result (list section)) (c : params) (k : nat) :
  (0 <= split_test_score (w2v_fit_and_score w2v_analogies) c k <= 1)%Q ∧
  (0 <= mean_test_score (w2v_fit_and_score w2v_analogies) c <= 1)%Q.
Proof.
  split; [apply w2v_split_bounds|].
  apply mean_test_score_bounds. intros k'. apply w2v_split_bounds.
Qed.

(** *** Ranks *)

Lemma filter_length_lt {A} (f : A → bool) (l : list A) (x : A) :
  x ∈ l → f x = false → (length (List.filter f l) < length l)%nat.
Proof.
  induction l as [|a l IH]; [by intros ?%elem_of_nil|].
  intros [->|Hin]%elem_of_cons Hx; cbn.
  - rewrite Hx. pose proof (List.filter_length_le f l). lia.
  - specialize (IH Hin Hx). destruct (f a); cbn; lia.
Qed.

Lemma rank_bounds (means : list Q) (m : Q) :
  m ∈ means → (1 ≤ rank means m ≤ length means)%nat.
Proof.
  intros Hin. unfold rank. split; [lia|].
  apply (filter_length_lt (lt_bool m) means m Hin).
  apply lt_bool_false, Qle_refl.
Qed.

(** X11.  The ranks recorded by a search, one per candidate, lie between
    1 and the number of candidates, and the selected candidate is one of
    rank 1. *)
Theorem ranks_between_1_and_n (candidates : list params)
    (fit_and_score : params → nat → result Q) :
  length (rank_test_score candidates fit_and_score) = length candidates ∧
  (∀ i r, rank_test_score candidates fit_and_score !! i = Some r →
          (1 ≤ r ≤ length candidates)%nat) ∧
  (∀ i, best_index_ candidates fit_and_score = Some i →
        rank_test_score candidates fit_and_score !! i = Some 1%nat).
Proof.
  unfold best_index_, rank_test_score. cbn zeta.
  remember (mean_test_score fit_and_score <$> candidates) as means eqn:Hmeans.
  assert (Hlen : length means = length candidates) by (by rewrite Hmeans, length_fmap).
  assert (Hbounds : ∀ i r, (rank means <$> means) !! i = Some r →
            (1 ≤ r ≤ length candidates)%nat).
  { intros i r (m & -> & Hm)%list_lookup_fmap_Some. rewrite <- Hlen.
    apply rank_bounds. by eapply list_elem_of_lookup_2. }
  split; [by rewrite length_fmap|]. split; [done|].
  intros i (r & Hr & Hmin)%argmin_spec.
  pose proof Hr as (m & -> & Hm)%list_lookup_fmap_Some.
  destruct (max_exists means) as (M & HM & HMmax).
  { intros Hnil. by rewrite Hnil in Hm. }
  apply list_elem_of_lookup in HM as [jM HjM].
  destruct (Hmin jM (rank means M)) as [Hle _].
  { by rewrite list_lookup_fmap, HjM. }
  rewrite (proj2 (rank_one means M) HMmax) in Hle.
  destruct (Hbounds i _ Hr) as [Hge _].
  rewrite Hr. f_equal. lia.
Qed.

(** *** The long-format frames that are plotted (lines 142-151, 189-196) *)

Record long_row (K : Type) : Type := LongRow {
  row_key : K;
  row_metric : string;
  row_result : Q
}.
Arguments LongRow {K} row_key row_metric row_result.
Arguments row_key {K} l.
Arguments row_metric {K} l.
Arguments row_result {K} l.

(** The three split columns, renamed to one metric, after
    [stack().reset_index()]: one row per candidate and fold, candidate by
    candidate. *)
Definition stack {K} (metric : string) (fit_and_score : params → nat → result Q)
    (rows : list (K * params)) : list (long_row K) :=
  row ← rows;
  (λ j, LongRow row.1 metric (split_test_score fit_and_score row.2 j)) <$> seq 0 cv.

(** [astype('int8')] of a rank; outside of the range of a signed byte the
    outcome depends on the version of numpy and is left undefined. *)
Definition astype_int8 (n : Z) : option Z :=
  if bool_decide (-128 ≤ n ≤ 127)%Z then Some n else None.

(** Lines 142-151.  [set_index('rank_test_acc')] labels the rows by rank
    and leaves them in the order of the candidates. *)
Definition w2v_gscv_results_graph_df (candidates : list params)
    (fit_and_score : params → nat → result Q) : option (list (long_row Z)) :=
  mapM (λ row, Rank ← astype_int8 (row_key row);
               Some (LongRow Rank (row_metric row) (row_result row)))
    (stack "Test analogy score" fit_and_score
       (zip (Z.of_nat <$> rank_test_score candidates fit_and_score) candidates)).

(** The value of a hyper-parameter in a candidate, as in the column
    [param_<name>] of the results. *)
Fixpoint param (name : string) (c : params) : option Q :=
  match c with
  | [] => None
  | (n, v) :: c' => if bool_decide (n = name) then Some v else param name c'
  end.

(** Ascending order with missing values last, the default of
    [sort_values]. *)
Definition k_le (a b : option Q) : bool :=
  match a, b with
  | Some x, Some y => Qle_bool x y
  | _, None => true
  | None, Some _ => false
  end.

(** Lines 189-196. *)
Definition clust_cv_results_graph_df (candidates : list params)
    (fit_and_score : params → nat → result Q) : list (long_row (option Q)) :=
  stack "Test silhouette" fit_and_score
    ((λ c, (param "ac__n_clusters" c, c)) <$>
     sort_by (λ a b, k_le (param "ac__n_clusters" a) (param "ac__n_clusters" b))
       candidates).

Section StackFacts.
Context {K : Type} (metric : string) (fit_and_score : params → nat → result Q).

Lemma stack_cons (row : K * params) rows :
  stack metric fit_and_score (row :: rows)
  = ((λ j, LongRow row.1 metric (split_test_score fit_and_score row.2 j)) <$> seq 0 cv)
    ++ stack metric fit_and_score rows.
Proof. done. Qed.

Lemma stack_length (rows : list (K * params)) :
  length (stack metric fit_and_score rows) = (cv * length rows)%nat.
Proof.
  induction rows as [|row rows IH]; [done|].
  rewrite stack_cons, length_app, IH, length_fmap, length_seq. cbn [length]. lia.
Qed.

Lemma stack_lookup (rows : list (K * params)) i row j :
  rows !! i = Some row → (j < cv)%nat →
  stack metric fit_and_score rows !! (cv * i + j)%nat
  = Some (LongRow row.1 metric (split_test_score fit_and_score row.2 j)).
Proof.
  revert i. induction rows as [|row' rows IH]; intros i Hrow Hj; [done|].
  rewrite stack_cons. destruct i as [|i].
  - injection Hrow as ->. rewrite Nat.mul_0_r, Nat.add_0_l.
    rewrite lookup_app_l by (by rewrite length_fmap, length_seq).
    rewrite list_lookup_fmap, lookup_seq_lt by done. done.
  - rewrite lookup_app_r by (rewrite length_fmap, length_seq; lia).
    rewrite length_fmap, length_seq.
    replace (cv * S i + j - cv)%nat with (cv * i + j)%nat by lia.
    by apply IH.
Qed.

Lemma stack_elem_of (rows : list (K * params)) r :
  r ∈ stack metric fit_and_score rows ↔
  ∃ row j, row ∈ rows ∧ (j < cv)%nat ∧
           r = LongRow row.1 metric (split_test_score fit_and_score row.2 j).
Proof.
  unfold stack. rewrite list_elem_of_bind. split.
  - intros (row & Hr & Hrow). apply list_elem_of_fmap in Hr as (j & -> & Hj).
    apply elem_of_seq in Hj. exists row, j. repeat split; (done || lia).
  - intros (row & j & Hrow & Hj & ->). exists row. split; [|done].
    apply list_elem_of_fmap. exists j. split; [done|]. apply elem_of_seq. lia.
Qed.

Lemma stack_sorted (R : K → K → Prop) (rows : list (K * params)) :
  (∀ x, R x x) →
  StronglySorted (λ a b, R a.1 b.1) rows →
  StronglySorted (λ r1 r2, R (row_key r1) (row_key r2))
    (stack metric fit_and_score rows).
Proof.
  intros Hrefl. induction 1 as [|row rows Hs IH Hall]; [constructor|].
  rewrite stack_cons. apply StronglySorted_app. split; [|split; [|done]].
  - intros r1 r2 (j1 & -> & _)%list_elem_of_fmap (row2 & j2 & Hin & _ & ->)%stack_elem_of.
    cbn. rewrite Forall_forall in Hall. by apply Hall.
  - generalize (seq 0 cv). intros l. induction l as [|j l IHl]; cbn; constructor; [done|].
    apply Forall_forall. intros r (j' & -> & _)%list_elem_of_fmap. apply Hrefl.
Qed.

End StackFacts.

Lemma k_le_refl a : k_le a a = true.
Proof. destruct a; [|done]. apply Qle_bool_iff, Qle_refl. Qed.

Lemma k_le_trans a b c : k_le a b = true → k_le b c = true → k_le a c = true.
Proof.
  destruct a, b, c; cbn; try done.
  rewrite !Qle_bool_iff. apply Qle_trans.
Qed.

Lemma k_le_total a b : k_le a b = false → k_le b a = true.
Proof.
  destruct a, b; cbn; try done. intros Hf. apply Qle_bool_iff.
  destruct (Qlt_le_dec q q0) as [Hlt|Hle]; [|done].
  apply Qlt_le_weak, Qle_bool_iff in Hlt. congruence.
Qed.

(** X12.  The frame behind the rank plot.  With at most 127 candidates
    the conversion of the ranks to signed bytes loses nothing: the frame
    has one row per candidate and fold, in the order of the candidates
    (labelling the rows by rank does not sort them), each carrying the
    candidate's rank and the score recorded for that fold. *)
Theorem rank_frame_is_lossless (candidates : list params)
    (fit_and_score : params → nat → result Q) :
  (length candidates ≤ 127)%nat →
  ∃ df,
    w2v_gscv_results_graph_df candidates fit_and_score = Some df ∧
    length df = (cv * length candidates)%nat ∧
    ∀ i c r j,
      candidates !! i = Some c →
      rank_test_score candidates fit_and_score !! i = Some r →
      (j < cv)%nat →
      df !! (cv * i + j)%nat
      = Some (LongRow (Z.of_nat r) "Test analogy score"
                (split_test_score fit_and_score c j)).
Proof.
  intros Hn. unfold w2v_gscv_results_graph_df.
  set (rows := zip (Z.of_nat <$> rank_test_score candidates fit_and_score) candidates).
  destruct (ranks_between_1_and_n candidates fit_and_score) as (Hlen & Hbounds & _).
  assert (Hid : mapM (λ row : long_row Z,
                        Rank ← astype_int8 (row_key row);
                        Some (LongRow Rank (row_metric row) (row_result row)))
                  (stack "Test analogy score" fit_and_score rows)
                = Some (stack "Test analogy score" fit_and_score rows)).
  { apply mapM_Some, Forall2_same_length_lookup. split; [done|].
    intros n x y Hx Hy. rewrite Hx in Hy. injection Hy as <-.
    apply list_elem_of_lookup_2, stack_elem_of in Hx as ([key c] & j & Hrow & _ & ->).
    cbn. apply list_elem_of_lookup in Hrow as [i Hi].
    apply lookup_zip_with_Some in Hi as (r' & c' & [= <- <-] & Hr & _).
    apply list_lookup_fmap_Some in Hr as (r & -> & Hr).
    apply Hbounds in Hr. unfold astype_int8.
    rewrite bool_decide_eq_true_2 by lia. done. }
  exists (stack "Test analogy score" fit_and_score rows). split; [done|]. split.
  - rewrite stack_length. unfold rows. rewrite length_zip, length_fmap, Hlen. lia.
  - intros i c r j Hc Hr Hj.
    rewrite (stack_lookup _ _ rows i (Z.of_nat r, c) j); [done| |done].
    unfold rows. apply lookup_zip_with_Some. exists (Z.of_nat r), c.
    split; [done|]. split; [|done]. by rewrite list_lookup_fmap, Hr.
Qed.

(** X13.  The frame behind the plot of the clustering search is in
    ascending order of the number of clusters, whatever the order of the
    candidates; it has one row per candidate and fold, carrying the score
    recorded for that fold. *)
Theorem cluster_frame_sorted_by_k (candidates : list params)
    (fit_and_score : params → nat → result Q) :
  StronglySorted (λ r1 r2, k_le (row_key r1) (row_key r2) = true)
    (clust_cv_results_graph_df candidates fit_and_score) ∧
  length (clust_cv_results_graph_df candidates fit_and_score)
    = (cv * length candidates)%nat ∧
  ∀ r, r ∈ clust_cv_results_graph_df candidates fit_and_score ↔
       ∃ c j, c ∈ candidates ∧ (j < cv)%nat ∧
              r = LongRow (param "ac__n_clusters" c) "Test silhouette"
                    (split_test_score fit_and_score c j).
Proof.
  unfold clust_cv_results_graph_df.
  set (by_k := λ a b : params,
         k_le (param "ac__n_clusters" a) (param "ac__n_clusters" b)).
  pose proof (sort_by_perm by_k candidates) as Hperm.
  split; [|split].
  - apply (stack_sorted _ _ (λ a b, k_le a b = true)); [apply k_le_refl|].
    apply (StronglySorted_fmap _ (λ a b : params, by_k a b = true)); [done|].
    apply Sorted_StronglySorted.
    { intros a b c. apply k_le_trans. }
    apply sort_by_sorted; [done|]. intros a b. apply k_le_total.
  - rewrite stack_length, length_fmap. by rewrite Hperm.
  - intros r. rewrite stack_elem_of. split.
    + intros ([key c] & j & Hin & Hj & ->).
      apply list_elem_of_fmap in Hin as (c' & [= -> ->] & Hin).
      rewrite Hperm in Hin. by exists c', j.
    + intros (c & j & Hin & Hj & ->).
      exists (param "ac__n_clusters" c, c), j. split; [|done].
      apply list_elem_of_fmap. exists c. split; [done|]. by rewrite Hperm.
Qed.

(** ** More on the table of clustered coordinates *)

Lemma zip3_length_min {A B C} (l1 : list A) (l2 : list B) (l3 : list C) :
  length (zip3 l1 l2 l3) = Nat.min (Nat.min (length l1) (length l2)) (length l3).
Proof.
  revert l2 l3. induction l1 as [|a l1 IH]; intros [|b l2] [|c l3]; cbn [zip3 length];
    try lia.
  rewrite IH. lia.
Qed.

(** X14.  [zip] stops at the shortest of its three arguments, and so does
    the table: it has as many rows as the shortest of the vectors, the
    cluster labels and the vocabulary, labelled [0 .. n-1] in some order,
    and a row labelled [i] exists exactly when all three have an entry [i],
    which it then carries.  Entities beyond the shortest argument are
    dropped without an error. *)
Theorem graph_dataframe_truncates (coord : Type)
    (umap_vectors : list (point coord)) (clusters : list Z) (index2entity : list string) :
  length (graph_data_df coord umap_vectors clusters index2entity)
    = Nat.min (Nat.min (length umap_vectors) (length clusters)) (length index2entity) ∧
  (graph_data_df coord umap_vectors clusters index2entity).*1
    ≡ₚ seq 0 (Nat.min (Nat.min (length umap_vectors) (length clusters)) (length index2entity)) ∧
  (∀ i r, (i, r) ∈ graph_data_df coord umap_vectors clusters index2entity ↔
     ∃ p c e, umap_vectors !! i = Some p ∧ clusters !! i = Some c ∧
              index2entity !! i = Some e ∧ r = Row coord p.1.1 p.1.2 p.2 c e).
Proof.
  unfold graph_data_df, sort_values_by_cluster.
  set (df := DataFrame coord (graph_data coord umap_vectors clusters index2entity)).
  assert (Hperm : sort_by (λ a b, (row_cluster coord a.2 <=? row_cluster coord b.2)%Z) df
                  ≡ₚ df) by apply sort_by_perm.
  assert (Hlen : length (graph_data coord umap_vectors clusters index2entity)
                 = Nat.min (Nat.min (length umap_vectors) (length clusters)) (length index2entity)).
  { unfold graph_data. by rewrite length_fmap, zip3_length_min. }
  split; [|split].
  - rewrite Hperm. unfold df, DataFrame. by rewrite length_imap.
  - rewrite Hperm. unfold df. by rewrite DataFrame_labels, Hlen.
  - intros i r. rewrite Hperm. unfold df.
    by rewrite DataFrame_elem_of, graph_data_lookup.
Qed.

(** ** More on the parameter grids *)

Definition grid_size (items : list (string * list Q)) : nat :=
  foldr (λ item n, (length item.2 * n)%nat) 1%nat items.

Lemma bind_fmap_length {A B C} (vs : list A) (l : list B) (g : A → B → C) :
  length (v ← vs; g v <$> l) = (length vs * length l)%nat.
Proof.
  induction vs as [|v vs IH]; [done|].
  rewrite bind_cons, length_app, length_fmap, IH. cbn. lia.
Qed.

Lemma product_length items : length (product items) = grid_size items.
Proof.
  induction items as [|[k vs] items IH]; [done|].
  change (grid_size ((k, vs) :: items)) with (length vs * grid_size items)%nat.
  rewrite <- IH. cbn [product].
  apply (bind_fmap_length vs (product items) (λ v p, (k, v) :: p)).
Qed.

Lemma product_elem_of items (p : params) :
  p ∈ product items ↔
  Forall2 (λ kv item, kv.1 = item.1 ∧ kv.2 ∈ item.2) p items.
Proof.
  revert p. induction items as [|[k vs] items IH]; intros p.
  - cbn. rewrite list_elem_of_singleton. split; [by intros ->|by inversion 1].
  - cbn [product]. rewrite list_elem_of_bind. split.
    + intros (v & Hp & Hv). apply list_elem_of_fmap in Hp as (p' & -> & Hp').
      constructor; [done|]. by apply IH.
    + inversion 1 as [|[k' v] item p' items' [Hk Hv] Hrest]; subst. cbn in *. subst k'.
      exists v. split; [|done]. apply list_elem_of_fmap. exists p'.
      split; [done|]. by apply IH.
Qed.

Lemma grid_size_perm items items' :
  items ≡ₚ items' → grid_size items = grid_size items'.
Proof.
  unfold grid_size.
  induction 1 as [|x l l' _ IH|x y l|l l' l'' _ IH1 _ IH2]; cbn [foldr].
  - done.
  - by rewrite IH.
  - lia.
  - by rewrite IH1.
Qed.

Lemma product_keys (items : list (string * list Q)) (p : params) :
  Forall2 (λ kv item, kv.1 = item.1 ∧ kv.2 ∈ item.2) p items → p.*1 = items.*1.
Proof. induction 1 as [|kv item p items [Hk _] _ IH]; [done|]. cbn. by rewrite Hk, IH. Qed.

Lemma product_values (items : list (string * list Q)) (p : params) name v :
  Forall2 (λ kv item, kv.1 = item.1 ∧ kv.2 ∈ item.2) p items →
  (name, v) ∈ p → ∃ vs, (name, vs) ∈ items ∧ v ∈ vs.
Proof.
  induction 1 as [|kv item p items [Hk Hv] _ IH]; intros Hin;
    [by apply elem_of_nil in Hin|].
  apply elem_of_cons in Hin as [<-|Hin].
  - exists item.2. split; [|done]. cbn in Hk. rewrite Hk. destruct item. by left.
  - destruct (IH Hin) as (vs & Hvs & Hv'). exists vs. split; [by right|done].
Qed.

Lemma leb_key_false (a b : string * list Q) :
  String.leb a.1 b.1 = false → String.leb b.1 a.1 = true.
Proof. intros Hf. destruct (String.leb_total a.1 b.1); [congruence|done]. Qed.

(** X15.  The candidates of a search over a grid: there are as many as
    the product of the numbers of values listed for each hyper-parameter;
    each candidate names the hyper-parameters of the grid, in alphabetical
    order whatever their order in the grid, and gives each one of the
    values listed for it; and every such choice of values is a candidate. *)
Theorem parameter_grid_candidates (grid : list (string * list Q)) (p : params) :
  length (ParameterGrid grid) = grid_size grid ∧
  (p ∈ ParameterGrid grid →
     p.*1 ≡ₚ grid.*1 ∧
     Sorted (λ a b, String.leb a b = true) p.*1 ∧
     ∀ name v, (name, v) ∈ p → ∃ vs, (name, vs) ∈ grid ∧ v ∈ vs) ∧
  (p ∈ ParameterGrid grid ↔
     Forall2 (λ kv item, kv.1 = item.1 ∧ kv.2 ∈ item.2) p
       (sort_by (λ a b, String.leb a.1 b.1) grid)).
Proof.
  unfold ParameterGrid.
  set (sorted := sort_by (λ a b, String.leb a.1 b.1) grid).
  assert (Hperm : sorted ≡ₚ grid) by apply sort_by_perm.
  assert (Hsorted : Sorted (λ a b : string * list Q, String.leb a.1 b.1 = true) sorted).
  { apply sort_by_sorted; [done|]. intros a b. apply leb_key_false. }
  split; [|split].
  - rewrite product_length. by apply grid_size_perm.
  - intros Hp%product_elem_of.
    pose proof (product_keys _ _ Hp) as Hkeys.
    split; [by rewrite Hkeys, Hperm|]. split.
    + rewrite Hkeys. clear -Hsorted.
      induction Hsorted as [|a l _ IH Hhd]; cbn; constructor; [done|].
      destruct Hhd; cbn; by constructor.
    + intros name v Hin.
      destruct (product_values _ _ name v Hp Hin) as (vs & Hvs & Hv).
      exists vs. split; [by rewrite <- Hperm|done].
  - apply product_elem_of.
Qed.

(** ** The script as a whole: what it reads, writes and shows *)

Section Pipeline.

(** Opaque library values: a coordinate, an embedding vector, a fitted
    word2vec pipeline. *)
Variable coord : Type.
Variable vec : Type.
Variable fitted : Type.

(** A figure, with the data it draws. *)
Inductive figure : Type :=
| RankPlot (df : option (list (long_row Z)))
| ClusterPlot (df : list (long_row (option Q)))
| SilhouettePlot (umap_vectors : list (point coord)) (clusters : list Z)
| ScatterPlot (df : list (nat * row coord)).

(** What a file holds. *)
Inductive content : Type :=
| Profiles (data : list (list string))
| ResultsCsv (cv_results_ : list (params * list Q * Q * nat))
| GraphCsv (df : list (nat * row coord))
| Png (fig : figure).

Record world : Type := World {
  disk : gmap string content;
  display : list figure
}.

(** The working directory and the time stamp of lines 40-41, the notebook
    detector, and the library computations: cross-validated evaluation and
    final fit of word2vec on the corpus, what a fitted model answers (the
    evaluated sections of the analogy file, its normalised vectors, its
    vocabulary), UMAP (not seeded: its n-th call is its own function), the
    folds of the reduced vectors, clustering and the silhouette score. *)
Variable cwd : string.
Variable SAVE_STAMP : string.
Variable in_ipynb : bool.
Variable w2v_cv : list (list string) → params → nat → result (list section).
Variable w2v_fit : params → list (list string) → result fitted.
Variable wv_sections : fitted → list section.
Variable wv_vectors : fitted → list vec.
Variable wv_index2entity : fitted → list string.
Variable umap_fit_transform : nat → list vec → list (point coord).
Variable kfold : list (point coord) → nat → list (point coord).
Variable fit_predict : params → list (point coord) → result (list Z).
Variable silhouette_score : list (point coord) → list Z → result Q.

Definition SAVE_PATH : string :=
  path_join (path_join (path_join cwd "mimic") "model") (SAVE_STAMP +:+ "word2vec").

Definition profiles_path : string :=
  path_join (path_join (path_join cwd "mimic") "preprocessed_data_mimic")
    "profiles_list.pkl".

Definition csv_files : list string :=
  [ path_join SAVE_PATH "word2vec_gridsearch_results.csv";
    path_join SAVE_PATH "clustering_grid_search_results.csv";
    path_join SAVE_PATH "graph_dataframe.csv" ].

Definition png_files : list string :=
  [ path_join SAVE_PATH "word2vec_grid_search_results.png";
    path_join SAVE_PATH "cluster_grid_search_results.png";
    path_join SAVE_PATH "silhouette_plot.png";
    path_join SAVE_PATH "clusted_embeddings_plot.png" ].

(** The files a run may write. *)
Definition outputs : list string :=
  csv_files ++ (if in_ipynb then [] else png_files).

(** *** The monad of the script *)

Definition W (A : Type) : Type := world → result A * world.

Definition wret {A} (a : A) : W A := λ w, (Ok a, w).
Definition wbind {A B} (m : W A) (k : A → W B) : W B :=
  λ w, match m w with
       | (Ok a, w') => k a w'
       | (Raise e, w') => (Raise e, w')
       end.
Definition lift {A} (r : result A) : W A := λ w, (r, w).

Notation "x <- m ;; k" := (wbind m (λ x, k))
  (at level 100, m at next level, right associativity).
Notation "m ;;; k" := (wbind m (λ _, k))
  (at level 100, right associativity).

(** Lines 80-82. *)
Definition load_profiles : W (list (list string)) :=
  λ w, match disk w !! profiles_path with
       | Some (Profiles data) => (Ok data, w)
       | Some _ => (Raise (UnpicklingError profiles_path), w)
       | None => (Raise (FileNotFoundError profiles_path), w)
       end.

(** [df.to_csv(os.path.join(SAVE_PATH, name))]. *)
Definition to_csv (name : string) (c : content) : W unit :=
  λ w, (Ok tt, World (<[path_join SAVE_PATH name := c]> (disk w)) (display w)).

(** The idiom of lines 156-161, 201-206, 227-232 and 256-261:
    [plt.show()] in a notebook, [plt.savefig(...)] otherwise. *)
Definition output_plot (name : string) (fig : figure) : W unit :=
  λ w, if in_ipynb then (Ok tt, World (disk w) (display w ++ [fig]))
       else (Ok tt, World (<[path_join SAVE_PATH name := Png fig]> (disk w)) (display w)).

(** [GridSearchCV(...).fit(X)] with [refit]: the search, then the final
    fit of the best candidate, whose failure is not caught. *)
Definition gscv_fit {E} (candidates : list params)
    (fit_and_score : params → nat → result Q) (refit : params → result E)
    : result (params * E) :=
  match best_params_ candidates fit_and_score with
  | None => Raise (ValueError "no candidates")
  | Some p => result_bind (refit p) (λ e, Ok (p, e))
  end.

(** The table [cv_results_]: per candidate, its parameters, its split
    scores, their mean and its rank. *)
Definition cv_results_ (candidates : list params)
    (fit_and_score : params → nat → result Q) : list (params * list Q * Q * nat) :=
  (λ cr, (cr.1, split_test_scores fit_and_score cr.1,
          mean_test_score fit_and_score cr.1, cr.2))
  <$> zip candidates (rank_test_score candidates fit_and_score).

Definition w2v_script : W unit :=
  data <- load_profiles ;;
  let w2v_score := w2v_fit_and_score (w2v_cv data) in
  w2v_gscv <- lift (gscv_fit (ParameterGrid W2V_GRID) w2v_score (λ p, w2v_fit p data)) ;;
  to_csv "word2vec_gridsearch_results.csv"
    (ResultsCsv (cv_results_ (ParameterGrid W2V_GRID) w2v_score)) ;;;
  output_plot "word2vec_grid_search_results.png"
    (RankPlot (w2v_gscv_results_graph_df (ParameterGrid W2V_GRID) w2v_score)) ;;;
  let vectors := wv_vectors w2v_gscv.2 in
  let umap_vectors := umap_fit_transform 0 vectors in
  let clust_score :=
    clust_fit_and_score coord (kfold umap_vectors) fit_predict silhouette_score in
  clust_gscv <- lift (gscv_fit (ParameterGrid CLUST_GRID) clust_score
                        (λ p, fit_predict p umap_vectors)) ;;
  to_csv "clustering_grid_search_results.csv"
    (ResultsCsv (cv_results_ (ParameterGrid CLUST_GRID) clust_score)) ;;;
  output_plot "cluster_grid_search_results.png"
    (ClusterPlot (clust_cv_results_graph_df (ParameterGrid CLUST_GRID) clust_score)) ;;;
  acc <- lift (accuracy_scorer_gensim (wv_accuracy (wv_sections w2v_gscv.2))) ;;
  let vectors := wv_vectors w2v_gscv.2 in
  let umap_vectors := umap_fit_transform 1 vectors in
  clusters <- lift (fit_predict clust_gscv.1 umap_vectors) ;;
  output_plot "silhouette_plot.png" (SilhouettePlot umap_vectors clusters) ;;;
  let graph_data_df :=
    graph_data_df coord umap_vectors clusters (wv_index2entity w2v_gscv.2) in
  to_csv "graph_dataframe.csv" (GraphCsv graph_data_df) ;;;
  output_plot "clusted_embeddings_plot.png" (ScatterPlot graph_data_df).

(** *** Paths *)

Lemma append_assoc (a b c : string) : (a +:+ b) +:+ c = a +:+ (b +:+ c).
Proof.
  induction a as [|x a IH]; [done|].
  change (String x ((a +:+ b) +:+ c) = String x (a +:+ b +:+ c)). by f_equal.
Qed.

Lemma append_inj_l (s a b : string) : s +:+ a = s +:+ b → a = b.
Proof. apply String.app_inj. Qed.

Lemma path_join_inj (s a b : string) : path_join s a = path_join s b → a = b.
Proof. unfold path_join. intros H%append_inj_l. by injection H. Qed.

Lemma profiles_path_not_saved name : profiles_path ≠ path_join SAVE_PATH name.
Proof.
  unfold profiles_path, SAVE_PATH, path_join. rewrite !append_assoc.
  intros H%append_inj_l. vm_compute in H. discriminate H.
Qed.

(** *** Which files a computation leaves alone *)

Definition keeps (path : string) {A} (m : W A) : Prop :=
  ∀ w, disk (m w).2 !! path = disk w !! path.

Lemma keeps_lift path {A} (r : result A) : keeps path (lift r).
Proof. by intros w. Qed.

Lemma keeps_wbind path {A B} (m : W A) (k : A → W B) :
  keeps path m → (∀ a, keeps path (k a)) → keeps path (wbind m k).
Proof.
  intros Hm Hk w. unfold wbind. specialize (Hm w).
  destruct (m w) as [[a|e] w']; cbn [snd] in *; [|done].
  by rewrite Hk.
Qed.

Lemma keeps_load_profiles path : keeps path load_profiles.
Proof.
  intros w. unfold load_profiles. by destruct (disk w !! profiles_path) as [[| | |]|].
Qed.

Lemma keeps_to_csv path name c :
  path ≠ path_join SAVE_PATH name → keeps path (to_csv name c).
Proof. intros Hne w. cbn. by rewrite lookup_insert_ne. Qed.

Lemma keeps_output_plot path name fig :
  (in_ipynb = false → path ≠ path_join SAVE_PATH name) →
  keeps path (output_plot name fig).
Proof.
  intros Hne w. unfold output_plot. destruct in_ipynb; [done|].
  cbn. rewrite lookup_insert_ne; [done|]. intros Heq. by apply Hne.
Qed.

(** Computations that show nothing. *)
Definition quiet {A} (m : W A) : Prop := ∀ w, display (m w).2 = display w.

Lemma quiet_wbind {A B} (m : W A) (k : A → W B) :
  quiet m → (∀ a, quiet (k a)) → quiet (wbind m k).
Proof.
  intros Hm Hk w. unfold wbind. specialize (Hm w).
  destruct (m w) as [[a|e] w']; cbn [snd] in *; [|done].
  by rewrite Hk.
Qed.

Lemma quiet_load_profiles : quiet load_profiles.
Proof.
  intros w. unfold load_profiles. by destruct (disk w !! profiles_path) as [[| | |]|].
Qed.

Lemma quiet_output_plot name fig : in_ipynb = false → quiet (output_plot name fig).
Proof. intros Hnb w. unfold output_plot. by rewrite Hnb. Qed.

(** X16.  Whatever the outcome of a run, the script touches no file but
    its own outputs under [SAVE_PATH]: the three CSV tables and, outside a
    notebook only, the four figures.  In particular it never overwrites the
    corpus it reads, and outside a notebook it shows nothing. *)
Theorem script_writes_only_its_outputs (w : world) (path : string) :
  (path ∉ outputs → disk (w2v_script w).2 !! path = disk w !! path) ∧
  (profiles_path ∉ outputs) ∧
  (in_ipynb = false → display (w2v_script w).2 = display w).
Proof.
  split; [|split].
  - intros Hout.
    assert (Hcsv : ∀ name, path_join SAVE_PATH name ∈ csv_files →
                           path ≠ path_join SAVE_PATH name).
    { intros name Hin ->. apply Hout. unfold outputs. apply elem_of_app. by left. }
    assert (Hpng : ∀ name, path_join SAVE_PATH name ∈ png_files →
                           in_ipynb = false → path ≠ path_join SAVE_PATH name).
    { intros name Hin Hnb ->. apply Hout. unfold outputs. rewrite Hnb.
      apply elem_of_app. by right. }
    unfold w2v_script.
    repeat first
      [ apply keeps_wbind; [|intros ?]
      | apply keeps_load_profiles
      | apply keeps_lift
      | apply keeps_to_csv, Hcsv; unfold csv_files; repeat first [by left | right]
      | apply keeps_output_plot, Hpng; unfold png_files; repeat first [by left | right] ].
  - unfold outputs. intros Hin. apply elem_of_app in Hin as [Hin|Hin].
    + unfold csv_files in Hin.
      repeat (apply elem_of_cons in Hin as [Heq|Hin];
              [by apply profiles_path_not_saved in Heq|]).
      by apply elem_of_nil in Hin.
    + destruct in_ipynb; [by apply elem_of_nil in Hin|]. unfold png_files in Hin.
      repeat (apply elem_of_cons in Hin as [Heq|Hin];
              [by apply profiles_path_not_saved in Heq|]).
      by apply elem_of_nil in Hin.
  - intros Hnb. revert w. change (quiet w2v_script). unfold w2v_script.
    repeat first
      [ apply quiet_wbind; [|intros ?]
      | apply quiet_load_profiles
      | by apply quiet_output_plot
      | by intros w ].
Qed.



Lemma csv_distinct :
  path_join SAVE_PATH "word2vec_gridsearch_results.csv"
    ≠ path_join SAVE_PATH "clustering_grid_search_results.csv" ∧
  path_join SAVE_PATH "word2vec_gridsearch_results.csv"
    ≠ path_join SAVE_PATH "graph_dataframe.csv" ∧
  path_join SAVE_PATH "clustering_grid_search_results.csv"
    ≠ path_join SAVE_PATH "graph_dataframe.csv".
Proof. repeat split; by intros H%path_join_inj. Qed.

Lemma png_not_csv png csv :
  path_join SAVE_PATH png ∈ png_files → path_join SAVE_PATH csv ∈ csv_files →
  path_join SAVE_PATH png ≠ path_join SAVE_PATH csv.
Proof.
  unfold png_files, csv_files. intros Hpng Hcsv Heq%path_join_inj. subst png.
  repeat (apply elem_of_cons in Hpng as [Hp%path_join_inj|Hpng];
          [subst csv;
           repeat (apply elem_of_cons in Hcsv as [Hc%path_join_inj|Hcsv];
                   [discriminate Hc|]);
           by apply elem_of_nil in Hcsv|]).
  by apply elem_of_nil in Hpng.
Qed.



End Pipeline.

(** *** A concrete run of the script *)

Definition ex_sections : list section :=
  [Section_ "capitals" [("a", "b", "c", "d")] [("a", "b", "c", "e")]].

Definition ex_w2v_cv (data : list (list string)) (c : params) (k : nat)
    : result (list section) := Ok ex_sections.
Definition ex_w2v_fit (c : params) (data : list (list string)) : result unit := Ok tt.
Definition ex_wv_vectors (m : unit) : list Z := [1; 2; 3]%Z.
Definition ex_wv_index2entity (m : unit) : list string := ex_index2entity.
Definition ex_umap (n : nat) (vectors : list Z) : list (point Z) :=
  (λ v, (v + Z.of_nat n, v, v)%Z) <$> vectors.
Definition ex_kfold (X : list (point Z)) (k : nat) : list (point Z) := X.
Definition ex_fit_predict (c : params) (X : list (point Z)) : result (list Z) :=
  Ok ((λ p, (3 - p.2)%Z) <$> X).
Definition ex_silhouette_score (X : list (point Z)) (clusters : list Z) : result Q :=
  Ok (1 # 2)%Q.

Definition ex_world : world Z :=
  World Z {[ profiles_path "/home/user" := Profiles Z [["aspirin"; "heparin"]; ["insulin"]] ]} [].

(** The script run in [/home/user], with a given notebook flag and a given
    evaluation of the analogy file by the final model. *)
Definition ex_script (in_ipynb : bool) (final_sections : list section)
    : result unit * world Z :=
  w2v_script Z Z unit "/home/user" "20190813-2105" in_ipynb ex_w2v_cv ex_w2v_fit
    (λ _, final_sections) ex_wv_vectors ex_wv_index2entity ex_umap ex_kfold
    ex_fit_predict ex_silhouette_score ex_world.

Example ex_script_table :
  (ex_script false ex_sections).1 = Ok tt ∧
  disk Z (ex_script false ex_sections).2
    !! "/home/user/mimic/model/20190813-2105word2vec/graph_dataframe.csv"
  = Some (GraphCsv Z [ (2%nat, Row Z 4 3 3 0 "insulin");
                       (1%nat, Row Z 3 2 2 1 "heparin");
                       (0%nat, Row Z 2 1 1 2 "aspirin") ]%Z).
Proof. vm_compute. done. Qed.

Lemma scorer_extremes_witness :
  ((inject_Z 1 / inject_Z (1 + 0) == 1)%Q ↔
     incorrect (total [Section_ "capitals" [("a", "b", "c", "d")] []]) = []) ∧
  ((inject_Z 1 / inject_Z (1 + 0) == 0)%Q ↔
     correct (total [Section_ "capitals" [("a", "b", "c", "d")] []]) = []).
Proof.
  apply (scorer_extremes
           (wv_accuracy [Section_ "capitals" [("a", "b", "c", "d")] []])
           (total [Section_ "capitals" [("a", "b", "c", "d")] []])
           (inject_Z 1 / inject_Z (1 + 0))%Q); reflexivity.
Defined.

Lemma rank_frame_is_lossless_witness :
  ∃ df,
    w2v_gscv_results_graph_df ex_candidates ex_score = Some df ∧
    length df = (cv * length ex_candidates)%nat ∧
    ∀ i c r j,
      ex_candidates !! i = Some c →
      rank_test_score ex_candidates ex_score !! i = Some r →
      (j < cv)%nat →
      df !! (cv * i + j)%nat
      = Some (LongRow (Z.of_nat r) "Test analogy score" (split_test_score ex_score c j)).
Proof.
  apply (rank_frame_is_lossless ex_candidates ex_score). simpl. lia.
Defined.



(** ** The searches on binary64 scores

    Which candidate a search selects depends on how the scores are
    rounded: two candidates whose folds have the same exact mean can get
    different binary64 means.  Here the scores are IEEE 754 binary64
    numbers, as Python floats are, with the operations of [SpecFloat]:
    rounding to nearest, ties to even. *)

Module Binary64.

Definition prec : Z := 53.
Definition emax : Z := 1024.
Definition float : Type := spec_float.

(** [float(n)], addition, division and [<]. *)
Definition of_Z (n : Z) : float := binary_normalize prec emax n 0 false.
Definition fadd (x y : float) : float := SFadd prec emax x y.
Definition fdiv (x y : float) : float := SFdiv prec emax x y.
Definition flt (x y : float) : bool := SFltb x y.

Definition is_nan (x : float) : bool :=
  match x with S754_nan => true | _ => false end.

(** Python's [a / b] on two integers, each below [2^53] in absolute
    value: the binary64 nearest to the quotient. *)
Definition truediv (a b : Z) : result float :=
  if (b =? 0)%Z then Raise ZeroDivisionError
  else Ok (fdiv (of_Z a) (of_Z b)).

(** [accuracy_scorer_gensim(pipe)], lines 115-119, returning a float. *)
Definition accuracy_scorer_gensim (acc_dict : list section) : result float :=
  match acc_dict !! 1%nat with
  | None => Raise IndexError
  | Some entry =>
      truediv (Z.of_nat (length (correct entry)))
              (Z.of_nat (length (correct entry)) + Z.of_nat (length (incorrect entry)))
  end.

(** *** [GridSearchCV(..., cv=3, refit=..., error_score=0)]

    The scores of a candidate are gathered in an array of floats, a fold
    that failed being recorded as [error_score].  [numpy] computes the mean
    of a row by adding its entries from left to right, starting from zero,
    and dividing by their number (an unweighted mean).
    [rankdata(-means, method='min')] gives a candidate one more than the
    number of means strictly above its own, and [argmin] takes the first
    candidate of rank 1.  How [rankdata] orders a mean that is not a number
    is not modelled. *)

Definition error_score : float := of_Z 0.

Section GridSearch.

Variable candidates : list params.
Variable fit_and_score : params → nat → result float.

Definition split_test_score (c : params) (k : nat) : float :=
  match fit_and_score c k with
  | Ok s => s
  | Raise _ => error_score
  end.

Definition split_test_scores (c : params) : list float :=
  split_test_score c <$> seq 0 cv.

Definition fsum (l : list float) : float := foldl fadd (of_Z 0) l.

Definition mean_test_score (c : params) : float :=
  fdiv (fsum (split_test_scores c)) (of_Z (Z.of_nat cv)).

Definition rank (means : list float) (m : float) : nat :=
  S (length (List.filter (flt m) means)).

Definition rank_test_score : list nat :=
  let means := mean_test_score <$> candidates in rank means <$> means.

Definition best_index_ : option nat := argmin rank_test_score.

Definition best_params_ : option params :=
  i ← best_index_; candidates !! i.

(** A candidate errored when all its folds failed. *)
Definition errored (c : params) : Prop :=
  ∀ k, (k < cv)%nat → is_ok (fit_and_score c k) = false.

(** No recorded mean is NaN. *)
Definition means_are_numbers : bool :=
  forallb (λ c, negb (is_nan (mean_test_score c))) candidates.

End GridSearch.

(** *** The two searches of the script (lines 134-135 and 181-182) *)

Section Searches.

Variable coord : Type.
Variable w2v_analogies : params → nat → result (list section).
Variable fold : nat → list (point coord).
Variable fit_predict : params → list (point coord) → result (list Z).
Variable silhouette_score : list (point coord) → list Z → result float.

Definition silhouette_scorer_cosine (c : params) (X : list (point coord)) : result float :=
  result_bind (fit_predict c X) (λ clusters, silhouette_score X clusters).

Definition w2v_fit_and_score (c : params) (k : nat) : result float :=
  result_bind (w2v_analogies c k) (λ sections,
    accuracy_scorer_gensim (wv_accuracy sections)).

Definition clust_fit_and_score (c : params) (k : nat) : result float :=
  silhouette_scorer_cosine c (fold k).

Definition w2v_best_params_ : option params :=
  best_params_ (ParameterGrid W2V_GRID) w2v_fit_and_score.

Definition clust_best_params_ : option params :=
  best_params_ (ParameterGrid CLUST_GRID) clust_fit_and_score.

End Searches.

(** *** The order of binary64 numbers

    [SFltb] compares two numbers by sign, then exponent, then mantissa; on
    numbers other than NaN that is the lexicographic order of a key. *)

Definition key (x : float) : Z * Z * Z :=
  match x with
  | S754_nan => (0, 0, 0)
  | S754_zero _ => (0, 0, 0)
  | S754_infinity true => (-2, 0, 0)
  | S754_infinity false => (2, 0, 0)
  | S754_finite true m e => (-1, - e, - Z.pos m)
  | S754_finite false m e => (1, e, Z.pos m)
  end%Z.

Definition lex (a b : Z * Z * Z) : Prop :=
  (a.1.1 < b.1.1 ∨
   (a.1.1 = b.1.1 ∧ (a.1.2 < b.1.2 ∨ (a.1.2 = b.1.2 ∧ a.2 < b.2))))%Z.

Lemma flt_key x y :
  is_nan x = false → is_nan y = false → flt x y = true ↔ lex (key x) (key y).
Proof.
  intros Hx Hy. unfold flt, SFltb, SFcompare, lex.
  destruct x as [sx|sx| |sx mx ex]; [| |done|];
  destruct y as [sy|sy| |sy my ey]; try done;
    try destruct sx; try destruct sy; cbn; try (split; [done || lia | lia]).
  - change (Pos.compare_cont Eq mx my) with (Pos.compare mx my).
    destruct (Z.compare_spec ex ey), (Pos.compare_spec mx my); cbn; split; (done || lia).
  - change (Pos.compare_cont Eq mx my) with (Pos.compare mx my).
    destruct (Z.compare_spec ex ey), (Pos.compare_spec mx my); cbn; split; (done || lia).
Qed.

Lemma flt_numbers x y : flt x y = true → is_nan x = false ∧ is_nan y = false.
Proof.
  unfold flt, SFltb, SFcompare.
  destruct x as [| | |]; destruct y as [| | |]; try done.
Qed.

Lemma flt_irrefl x : flt x x = false.
Proof.
  destruct (flt x x) eqn:H; [|done].
  destruct (flt_numbers _ _ H) as [Hx _].
  apply flt_key in H; [|done|done]. unfold lex in H. lia.
Qed.

Lemma flt_trans x y z : flt x y = true → flt y z = true → flt x z = true.
Proof.
  intros Hxy Hyz.
  destruct (flt_numbers _ _ Hxy) as [Hx Hy]. destruct (flt_numbers _ _ Hyz) as [_ Hz].
  apply flt_key in Hxy; [|done|done]. apply flt_key in Hyz; [|done|done].
  apply flt_key; [done|done|]. unfold lex in *. lia.
Qed.

Lemma flt_between x y z :
  flt x y = true → is_nan z = false → flt x z = true ∨ flt z y = true.
Proof.
  intros Hxy Hz. destruct (flt_numbers _ _ Hxy) as [Hx Hy].
  apply flt_key in Hxy; [|done|done].
  rewrite !flt_key by done. unfold lex in *. lia.
Qed.

(** *** Ranks and the best candidate *)

Lemma max_exists_float (l : list float) :
  l ≠ [] → ∃ M, M ∈ l ∧ ∀ m, m ∈ l → flt M m = false.
Proof.
  induction l as [|a l IH]; [done|]. intros _.
  destruct l as [|b l].
  - exists a. split; [by left|]. intros m ->%list_elem_of_singleton. apply flt_irrefl.
  - destruct IH as (M & HM & Hall); [done|].
    destruct (flt M a) eqn:HMa.
    + exists a. split; [by left|]. intros m [->|Hm]%elem_of_cons; [apply flt_irrefl|].
      destruct (flt a m) eqn:Ham; [|done].
      rewrite <- (Hall m Hm). symmetry. by eapply flt_trans.
    + exists M. split; [by right|]. intros m [->|Hm]%elem_of_cons; [done|by apply Hall].
Qed.

Lemma rank_one_float means m :
  rank means m = 1%nat ↔ ∀ m', m' ∈ means → flt m m' = false.
Proof.
  unfold rank. split.
  - intros Hlen m' Hin.
    destruct (flt m m') eqn:Hlt; [|done].
    assert (Hf : List.In m' (List.filter (flt m) means)).
    { apply List.filter_In. split; [by apply list_elem_of_In|done]. }
    destruct (List.filter (flt m) means); [done|]. cbn in Hlen. lia.
  - intros Hall. f_equal. induction means as [|a means IH]; [done|]. cbn.
    rewrite (Hall a) by (by left).
    apply IH. intros m' Hin. apply Hall. by right.
Qed.

Lemma rank_above_one_float means m :
  (1 < rank means m)%nat → ∃ m', m' ∈ means ∧ flt m m' = true.
Proof.
  unfold rank. intros Hlen.
  destruct (List.filter (flt m) means) as [|m' l] eqn:Hf; [cbn in Hlen; lia|].
  assert (Hin : List.In m' (List.filter (flt m) means)) by (rewrite Hf; by left).
  apply List.filter_In in Hin as [Hin Hlt].
  exists m'. split; [by apply list_elem_of_In|done].
Qed.

Section BestFacts.

Variable candidates : list params.
Variable fit_and_score : params → nat → result float.

Local Abbreviation mean := (mean_test_score fit_and_score).

Lemma means_are_numbers_elem c :
  means_are_numbers candidates fit_and_score = true →
  c ∈ candidates → is_nan (mean c) = false.
Proof.
  unfold means_are_numbers. rewrite forallb_forall. intros Hall Hin.
  apply negb_true_iff, Hall. by apply list_elem_of_In.
Qed.

(** The selected index is the first one whose mean is not exceeded. *)
Lemma best_index_first_max i :
  means_are_numbers candidates fit_and_score = true →
  best_index_ candidates fit_and_score = Some i →
  ∃ c, candidates !! i = Some c ∧
       ∀ j c', candidates !! j = Some c' →
               flt (mean c) (mean c') = false ∧
               ((j < i)%nat → flt (mean c') (mean c) = true).
Proof.
  unfold best_index_, rank_test_score. intros Hnum Hbest.
  cbn zeta in Hbest. remember (mean <$> candidates) as means eqn:Hmeans.
  apply argmin_spec in Hbest as (r & Hr & Hmin).
  apply list_lookup_fmap_Some in Hr as (m & -> & Hm).
  pose proof Hm as Hc. rewrite Hmeans in Hc.
  apply list_lookup_fmap_Some in Hc as (c & -> & Hc).
  exists c. split; [done|].
  destruct (max_exists_float means) as (M & HM & HMmax).
  { intros Hnil. by rewrite Hnil in Hm. }
  apply list_elem_of_lookup in HM as [jM HjM].
  assert (Hone : rank means (mean c) = 1%nat).
  { destruct (Hmin jM (rank means M)) as [Hle _].
    { by rewrite list_lookup_fmap, HjM. }
    rewrite (proj2 (rank_one_float means M) HMmax) in Hle. unfold rank in *. lia. }
  intros j c' Hj.
  assert (Hj' : means !! j = Some (mean c'))
    by (rewrite Hmeans; by rewrite list_lookup_fmap, Hj).
  split.
  { apply (proj1 (rank_one_float means (mean c)) Hone). by eapply list_elem_of_lookup_2. }
  intros Hlt.
  destruct (Hmin j (rank means (mean c'))) as [_ Hstrict].
  { by rewrite list_lookup_fmap, Hj'. }
  specialize (Hstrict Hlt). rewrite Hone in Hstrict.
  apply rank_above_one_float in Hstrict as (m' & Hin & Hlt').
  destruct (flt_between _ _ (mean c) Hlt') as [H|H]; [|done|].
  - apply (means_are_numbers_elem c Hnum). by eapply list_elem_of_lookup_2.
  - by rewrite (proj1 (rank_one_float means (mean c)) Hone m' Hin) in H.
Qed.

Lemma best_params_first_max :
  candidates ≠ [] →
  means_are_numbers candidates fit_and_score = true →
  ∃ i c, best_index_ candidates fit_and_score = Some i ∧
         best_params_ candidates fit_and_score = Some c ∧
         candidates !! i = Some c ∧
         ∀ j c', candidates !! j = Some c' →
                 flt (mean c) (mean c') = false ∧
                 ((j < i)%nat → flt (mean c') (mean c) = true).
Proof.
  intros Hne Hnum.
  destruct (argmin_is_Some (rank_test_score candidates fit_and_score)) as [i Hi].
  { unfold rank_test_score. by destruct candidates. }
  destruct (best_index_first_max i Hnum Hi) as (c & Hc & Hmax).
  exists i, c. split; [done|]. split; [|by split].
  unfold best_params_, best_index_. by rewrite Hi.
Qed.

(** The mean of a candidate whose folds all failed is zero. *)
Lemma mean_errored c : errored fit_and_score c → mean c = of_Z 0.
Proof.
  intros Herr. unfold mean_test_score, split_test_scores, split_test_score, cv.
  cbn [seq fmap list_fmap].
  pose proof (Herr 0%nat) as H0. pose proof (Herr 1%nat) as H1.
  pose proof (Herr 2%nat) as H2. unfold cv in *.
  destruct (fit_and_score c 0); [by specialize (H0 ltac:(lia))|].
  destruct (fit_and_score c 1); [by specialize (H1 ltac:(lia))|].
  destruct (fit_and_score c 2); [by specialize (H2 ltac:(lia))|].
  reflexivity.
Qed.

End BestFacts.

(** *** The recorded accuracies are numbers

    A quotient of two counts, zero, their sums and the mean of three of
    them are never NaN: all are zero, positive or plus infinity. *)






















(** *** Properties of the searches *)

(** C2, as amended.  In a grid search over a non-empty list of candidates
    (either search of the script is one) none of whose recorded means is
    NaN, a best candidate is selected: it is the first candidate whose
    recorded mean no candidate exceeds, every candidate before it having a
    strictly smaller mean.  A fold that failed is recorded as 0, the
    recorded mean of a candidate is the binary64 sum of its three recorded
    scores, added from left to right, divided by 3, and these means, failed
    folds included, are what the selection compares.  A candidate whose
    folds all failed has mean 0 and can therefore be selected, but only
    when no candidate has a recorded mean above 0. *)
Theorem best_is_first_maximum_of_recorded_scores
    (candidates : list params) (fit_and_score : params → nat → result float) :
  candidates ≠ [] →
  means_are_numbers candidates fit_and_score = true →
  ∃ i c,
    best_index_ candidates fit_and_score = Some i ∧
    best_params_ candidates fit_and_score = Some c ∧
    candidates !! i = Some c ∧
    (∀ j c', candidates !! j = Some c' →
       flt (mean_test_score fit_and_score c) (mean_test_score fit_and_score c') = false ∧
       ((j < i)%nat →
        flt (mean_test_score fit_and_score c') (mean_test_score fit_and_score c) = true)) ∧
    (∀ c' k,
       split_test_score fit_and_score c' k =
         match fit_and_score c' k with Ok s => s | Raise _ => of_Z 0 end) ∧
    (∀ c',
       mean_test_score fit_and_score c' =
         fdiv (fadd (fadd (fadd (of_Z 0) (split_test_score fit_and_score c' 0))
                          (split_test_score fit_and_score c' 1))
                    (split_test_score fit_and_score c' 2))
              (of_Z 3)) ∧
    (errored fit_and_score c →
       mean_test_score fit_and_score c = of_Z 0 ∧
       ∀ c', c' ∈ candidates →
         flt (of_Z 0) (mean_test_score fit_and_score c') = false) ∧
    ((∃ c', c' ∈ candidates ∧
            flt (of_Z 0) (mean_test_score fit_and_score c') = true) →
       ¬ errored fit_and_score c).
Proof.
  intros Hne Hnum.
  destruct (best_params_first_max candidates fit_and_score Hne Hnum)
    as (i & c & Hi & Hc & Hlook & Hmax).
  assert (Hzero : errored fit_and_score c →
            mean_test_score fit_and_score c = of_Z 0 ∧
            ∀ c', c' ∈ candidates →
              flt (of_Z 0) (mean_test_score fit_and_score c') = false).
  { intros Herr. split; [by apply mean_errored|].
    intros c' [j Hj]%list_elem_of_lookup.
    rewrite <- (mean_errored fit_and_score c Herr). by apply (Hmax j c'). }
  exists i, c. do 3 (split; [done|]). split; [exact Hmax|].
  split; [done|]. split; [done|]. split; [exact Hzero|].
  intros (c' & Hin & Hpos) Herr.
  destruct (Hzero Herr) as [_ Hall]. by rewrite (Hall c' Hin) in Hpos.
Qed.


(** *** Concrete searches *)

(** A decimal fraction as Python reads it: the binary64 nearest to [a/b]. *)
Definition decimal (a b : Z) : float := fdiv (of_Z a) (of_Z b).

(** The scenario of the specification: two candidates scoring 0.7 and 0.9
    on every fold. *)
Definition ex_score (c : params) (k : nat) : result float :=
  match c with
  | [(_, v)] => if Qeq_bool v 1 then Ok (decimal 7 10) else Ok (decimal 9 10)
  | _ => Raise (ValueError "params")
  end.

Example ex_best_params_binary64 :
  best_params_ ex_candidates ex_score = Some [("a", 2 # 1)%Q].
Proof. vm_compute. done. Qed.

(** Candidates named by their position, with their fold outcomes listed
    in a table. *)
Definition ex_positions (n : nat) : list params :=
  (λ i, [("a", inject_Z (Z.of_nat i))]) <$> seq 0 n.

Definition ex_table (table : list (list (result float))) (c : params) (k : nat)
    : result float :=
  match c with
  | [(_, v)] =>
      default (Raise (ValueError "fit")) (row ← table !! Z.to_nat (Qnum v); row !! k)
  | _ => Raise (ValueError "params")
  end.

(** Rounding decides between two candidates whose folds have the same
    exact mean: 0.3, 0.2, 0.1 add up to 0.6 and give the mean
    0.19999999999999998, while 0.1, 0.2, 0.3 add up to 0.6000000000000001
    and give 0.20000000000000004; the second candidate is selected. *)
Example ex_rounding_decides :
  let f := ex_table [ [Ok (decimal 3 10); Ok (decimal 2 10); Ok (decimal 1 10)];
                      [Ok (decimal 1 10); Ok (decimal 2 10); Ok (decimal 3 10)] ] in
  mean_test_score f [("a", 0 # 1)%Q] = S754_finite false 7205759403792793 (-55) ∧
  mean_test_score f [("a", 1 # 1)%Q] = S754_finite false 7205759403792795 (-55) ∧
  best_index_ (ex_positions 2) f = Some 1%nat.
Proof. vm_compute. done. Qed.

(** A failed fold counts as 0: a candidate with one failed fold and two
    folds at 0.9 has mean 0.6; it wins against a candidate at 0.5 on every
    fold and loses against one at 0.7. *)
Example ex_failed_fold_counts :
  best_index_ (ex_positions 2)
    (ex_table [ [Raise (ValueError "fit"); Ok (decimal 9 10); Ok (decimal 9 10)];
                [Ok (decimal 5 10); Ok (decimal 5 10); Ok (decimal 5 10)] ]) = Some 0%nat ∧
  best_index_ (ex_positions 2)
    (ex_table [ [Raise (ValueError "fit"); Ok (decimal 9 10); Ok (decimal 9 10)];
                [Ok (decimal 7 10); Ok (decimal 7 10); Ok (decimal 7 10)] ]) = Some 1%nat.
Proof. vm_compute. done. Qed.

Lemma best_is_first_maximum_of_recorded_scores_witness :
  ∃ i c,
    best_index_ ex_candidates ex_score = Some i ∧
    best_params_ ex_candidates ex_score = Some c ∧
    ex_candidates !! i = Some c ∧
    (∀ j c', ex_candidates !! j = Some c' →
       flt (mean_test_score ex_score c) (mean_test_score ex_score c') = false ∧
       ((j < i)%nat →
        flt (mean_test_score ex_score c') (mean_test_score ex_score c) = true)) ∧
    (∀ c' k,
       split_test_score ex_score c' k =
         match ex_score c' k with Ok s => s | Raise _ => of_Z 0 end) ∧
    (∀ c',
       mean_test_score ex_score c' =
         fdiv (fadd (fadd (fadd (of_Z 0) (split_test_score ex_score c' 0))
                          (split_test_score ex_score c' 1))
                    (split_test_score ex_score c' 2))
              (of_Z 3)) ∧
    (errored ex_score c →
       mean_test_score ex_score c = of_Z 0 ∧
       ∀ c', c' ∈ ex_candidates → flt (of_Z 0) (mean_test_score ex_score c') = false) ∧
    ((∃ c', c' ∈ ex_candidates ∧ flt (of_Z 0) (mean_test_score ex_score c') = true) →
       ¬ errored ex_score c).
Proof.
  apply (best_is_first_maximum_of_recorded_scores ex_candidates ex_score).
  - discriminate.
  - vm_compute. reflexivity.
Defined.

(** An embedding search in which the skip-gram candidates solve two
    analogies out of three and the others one out of three. *)
Definition ex_analogies (c : params) (k : nat) : result (list section) :=
  match param "w2v__sg" c with
  | Some sg =>
      if Qeq_bool sg 1
      then Ok [Section_ "capitals" [("a", "b", "c", "d"); ("e", "f", "g", "h")]
                                   [("i", "j", "k", "l")]]
      else Ok [Section_ "capitals" [("a", "b", "c", "d")]
                                   [("e", "f", "g", "h"); ("i", "j", "k", "l")]]
  | None => Raise (ValueError "params")
  end.

Example ex_w2v_best_params :
  best_index_ (ParameterGrid W2V_GRID) (w2v_fit_and_score ex_analogies) = Some 2%nat ∧
  w2v_best_params_ ex_analogies
  = Some [ ("w2v__alpha", 1 # 100); ("w2v__hs", 0 # 1); ("w2v__iter", 32 # 1);
           ("w2v__min_count", 5 # 1); ("w2v__sg", 1 # 1); ("w2v__size", 64 # 1);
           ("w2v__workers", 1 # 1) ]%Q.
Proof. vm_compute. done. Qed.



(** Every candidate of the clustering counterexample that fits gets the
    silhouette -0.1. *)
Definition cx_silhouette_score (X : list (point Z)) (clusters : list Z) : result float :=
  Ok (decimal (-1) 10).

(** C2, as stated, fails in both searches: a candidate all of whose folds
    failed is selected as best, although other candidates did not fail. *)
Lemma errored_configuration_selected_as_best :
  (clust_best_params_ Z cx_fold cx_fit_predict cx_silhouette_score
     = Some [("ac__n_clusters", 5 # 1)%Q] ∧
   errored (clust_fit_and_score Z cx_fold cx_fit_predict cx_silhouette_score)
     [("ac__n_clusters", 5 # 1)%Q] ∧
   ParameterGrid CLUST_GRID !! 1%nat = Some [("ac__n_clusters", 6 # 1)%Q] ∧
   ∀ k, clust_fit_and_score Z cx_fold cx_fit_predict cx_silhouette_score
          [("ac__n_clusters", 6 # 1)%Q] k = Ok (decimal (-1) 10)) ∧
  (w2v_best_params_ cx_analogies = Some cx_first ∧
   errored (w2v_fit_and_score cx_analogies) cx_first ∧
   ∃ c, ParameterGrid W2V_GRID !! 1%nat = Some c ∧
        ∀ k, w2v_fit_and_score cx_analogies c k = Ok (of_Z 0)).
Proof.
  split.
  - split; [by vm_compute|]. split; [by intros k _|]. split; [by vm_compute|].
    by intros k.
  - split; [by vm_compute|]. split; [by intros k _|].
    eexists. split; [by vm_compute|]. intros k. by vm_compute.
Qed.



End Binary64.

End W2V.
